(** * Inklings: friendship graph, visibility filters, link graph and
    similarity search of [app/models.py], embedded in Rocq.

    The Django models are rows of an explicit database value [DB]; model
    methods become functions that take the database, and methods that write
    return the new database.  A Python call either returns or raises, which
    is the [result] type below.

    Conventions of the embedding:
    - a [User] and its one-to-one [UserProfile] carry the same identifier.
      The relation is declared with [related_name="user_profile"], so a
      [User] has no attribute and no query name [userprofile]: reading
      [user.userprofile] raises, and a filter on [user__userprofile__...]
      raises when it is applied;
    - [Q] objects are kept as syntax (keyword lookups combined with [&], [|]
      and [~]). [Q_resolves] says whether a class has the fields a [Q]
      names, [Q_matches] evaluates a [Q] row by row; the number of times a
      row is repeated by a join is not represented;
    - where the source leaves the order of rows to the database, the order
      is a parameter [position] of the function;
    - embedding components and distances are rationals; the distance function
      itself is a parameter of the similarity search. *)

From Stdlib Require Import QArith Qcanon.
From stdpp Require Import base gmap sets list strings sorting numbers.

Open Scope string_scope.

(** ** Outcome of a Python call *)

Inductive Exn :=
  | ValueError (msg : string)
  | TypeError (msg : string)
  | AttributeError (msg : string)
  | RecursionError
  | FieldError.

Inductive result (A : Type) :=
  | Ok (a : A)
  | Raise (e : Exn).
Arguments Ok {A} a.
Arguments Raise {A} e.

Global Instance result_bind : MBind result := λ A B k r,
  match r with
  | Ok a => k a
  | Raise e => Raise e
  end.

Definition raises {A} (r : result A) : Prop := ∃ e, r = Raise e.

(** ** Rows *)

(** The models that appear in the [ContentType] table and carry an
    embedding. [model_name] is the [model] column. *)
Inductive ContentType := memo | reference | inkling | link | tag.

Global Instance ContentType_eq_dec : EqDecision ContentType.
Proof. solve_decision. Defined.

Definition model_name (ct : ContentType) : string :=
  match ct with
  | memo => "memo"
  | reference => "reference"
  | inkling => "inkling"
  | link => "link"
  | tag => "tag"
  end.

Definition all_content_types : list ContentType :=
  [memo; reference; inkling; link; tag].

(** [issubclass(model, PrivacySettingsModel)]: every model but [Tag]. *)
Definition issubclass_PrivacySettingsModel (ct : ContentType) : bool :=
  match ct with
  | tag => false
  | _ => true
  end.

(** [issubclass(model, NodeModel)]: the classes that have
    [related_nodes_filter] and the generic relations [source_links] and
    [target_links], again every model but [Tag]. *)
Definition issubclass_NodeModel (ct : ContentType) : bool :=
  match ct with
  | tag => false
  | _ => true
  end.

(** The columns that only the [Link] table has. *)
Record LinkFields := {
  source_content_type : ContentType;
  source_object_id : nat;
  target_content_type : ContentType;
  target_object_id : nat;
  link_type : nat
}.

(** One model instance. [cls] is its class, [user_id] its owner,
    [embedding] is [None] for a NULL vector, [link_fields] is present on
    [Link] rows. *)
Record Obj := {
  cls : ContentType;
  pk : nat;
  user_id : nat;
  privacy_setting : string;
  embedding : option (list Qc);
  link_fields : option LinkFields
}.

Global Instance LinkFields_eq_dec : EqDecision LinkFields.
Proof. solve_decision. Defined.

Global Instance Obj_eq_dec : EqDecision Obj.
Proof. solve_decision. Defined.

(** The database: every model instance, the rows of the symmetrical
    [UserProfile.friends] relation as (from, to) pairs, and the
    [FriendRequest] rows as (sender, receiver) pairs, unique together. *)
Record DB := {
  all_objects : list Obj;
  friends : gset (nat * nat);
  friend_requests : gset (nat * nat)
}.

(** [cls.objects] *)
Definition objects (db : DB) (c : ContentType) : list Obj :=
  filter (λ o, cls o = c) (all_objects db).

(** Resolution of a generic foreign key: the instance of that content type
    with that primary key, [None] when there is none. *)
Definition content_object (db : DB) (ct : ContentType) (id : nat) : option Obj :=
  head (filter (λ o, pk o = id) (objects db ct)).

(** ** UserProfile and FriendRequest *)

Module UserProfile.

(** [self.friends.all()] *)
Definition friends_all (db : DB) (self : nat) : list nat :=
  snd <$> filter (λ r, r.1 = self) (elements (friends db)).

(** [self.friends.add(other)] on a symmetrical relation writes the row
    and its mirror. *)
Definition friends_add (db : DB) (self other : nat) : DB :=
  {| all_objects := all_objects db;
     friends := friends db ∪ {[ (self, other); (other, self) ]};
     friend_requests := friend_requests db |}.

(** [self.friends.remove(other)] on a symmetrical relation deletes the row
    and its mirror. *)
Definition friends_remove (db : DB) (self other : nat) : DB :=
  {| all_objects := all_objects db;
     friends := friends db ∖ {[ (self, other); (other, self) ]};
     friend_requests := friend_requests db |}.

Definition is_friends_with (db : DB) (self friend_profile : nat) : bool :=
  bool_decide (friend_profile ∈ friends_all db self).

Definition has_sent_request_to (db : DB) (self receiver_profile : nat) : bool :=
  bool_decide ((self, receiver_profile) ∈ friend_requests db).

(** [FriendRequest.objects.create(sender=..., receiver=...)] *)
Definition FriendRequest_create (db : DB) (sender receiver : nat) : DB :=
  {| all_objects := all_objects db;
     friends := friends db;
     friend_requests := friend_requests db ∪ {[ (sender, receiver) ]} |}.

(** [FriendRequest.objects.filter(sender=..., receiver=...).delete()] *)
Definition FriendRequest_delete (db : DB) (sender receiver : nat) : DB :=
  {| all_objects := all_objects db;
     friends := friends db;
     friend_requests := friend_requests db ∖ {[ (sender, receiver) ]} |}.

Definition send_friend_request (db : DB) (self receiver_profile : nat) : result DB :=
  if negb (has_sent_request_to db self receiver_profile)
     && negb (is_friends_with db self receiver_profile)
  then Ok (FriendRequest_create db self receiver_profile)
  else Ok db.

Definition accept_friend_request (db : DB) (self sender_profile : nat) : result DB :=
  if has_sent_request_to db sender_profile self then
    let db := friends_add db self sender_profile in
    let db := friends_add db sender_profile self in
    Ok (FriendRequest_delete db sender_profile self)
  else Ok db.

Definition reject_friend_request (db : DB) (self sender_profile : nat) : result DB :=
  Ok (FriendRequest_delete db sender_profile self).

Definition remove_friend (db : DB) (self friend_profile : nat) : result DB :=
  Ok (friends_remove db self friend_profile).

End UserProfile.

Definition empty_db : DB :=
  {| all_objects := []; friends := ∅; friend_requests := ∅ |}.

(** ** Q objects *)

(** The keyword lookups that the models build. [user_exact u] is
    [user=u]; the others are spelled as in the source, with [__exact]
    written out. *)
Inductive Lookup :=
  | user_exact (u : nat)
  | user__in (us : list nat)
  | privacy_setting_exact (s : string)
  | user__userprofile__friends (p : nat)
  | user__userprofile__friends__in (ps : list nat)
  | pk_exact (n : nat)
  | source_content_type_exact (ct : ContentType)
  | source_object_id_exact (n : nat)
  | source_object_id__in (ns : list nat)
  | target_content_type_exact (ct : ContentType)
  | target_object_id_exact (n : nat)
  | target_object_id__in (ns : list nat)
  | source_links__source_content_type (ct : ContentType)
  | target_links__target_content_type (ct : ContentType).

(** [Q_ kwargs] is a [Q] built from keyword arguments, so [Q_ []] is the
    empty [Q()]. *)
Inductive Q :=
  | Q_ (kwargs : list Lookup)
  | Q_and (a b : Q)
  | Q_or (a b : Q)
  | Q_not (a : Q).

(** [bool(q)]: a [Q] is falsy when it has no children. *)
Definition Q__bool__ (q : Q) : bool :=
  match q with
  | Q_ [] => false
  | _ => true
  end.

(** [a | b] and [a & b]: an empty operand is dropped. *)
Definition Q__or__ (a b : Q) : Q :=
  if negb (Q__bool__ a) then b
  else if negb (Q__bool__ b) then a
  else Q_or a b.

Definition Q__and__ (a b : Q) : Q :=
  if negb (Q__bool__ a) then b
  else if negb (Q__bool__ b) then a
  else Q_and a b.

Definition Q__invert__ (a : Q) : Q := Q_not a.

Definition on_link_fields (o : Obj) (f : LinkFields → bool) : bool :=
  match link_fields o with
  | Some lf => f lf
  | None => false
  end.

(** The rows of [Link] reached from [o] through the generic relation
    [source_links] (resp. [target_links]): the links whose source (resp.
    target) content type is the class of [o] and whose object id is its
    primary key. *)
Definition source_links (db : DB) (o : Obj) : list Obj :=
  filter (λ l, on_link_fields l (λ lf,
            bool_decide (source_content_type lf = cls o)
            && bool_decide (source_object_id lf = pk o)))
         (objects db link).

Definition target_links (db : DB) (o : Obj) : list Obj :=
  filter (λ l, on_link_fields l (λ lf,
            bool_decide (target_content_type lf = cls o)
            && bool_decide (target_object_id lf = pk o)))
         (objects db link).

(** Whether the row [o] satisfies a lookup. No class resolves the lookups
    through [userprofile] (see [lookup_resolves] below), so no row satisfies
    them. *)
Definition lookup_matches (db : DB) (o : Obj) (l : Lookup) : bool :=
  match l with
  | user_exact u => bool_decide (user_id o = u)
  | user__in us => bool_decide (user_id o ∈ us)
  | privacy_setting_exact s => bool_decide (privacy_setting o = s)
  | user__userprofile__friends _ | user__userprofile__friends__in _ => false
  | pk_exact n => bool_decide (pk o = n)
  | source_content_type_exact ct =>
      on_link_fields o (λ lf, bool_decide (source_content_type lf = ct))
  | source_object_id_exact n =>
      on_link_fields o (λ lf, bool_decide (source_object_id lf = n))
  | source_object_id__in ns =>
      on_link_fields o (λ lf, bool_decide (source_object_id lf ∈ ns))
  | target_content_type_exact ct =>
      on_link_fields o (λ lf, bool_decide (target_content_type lf = ct))
  | target_object_id_exact n =>
      on_link_fields o (λ lf, bool_decide (target_object_id lf = n))
  | target_object_id__in ns =>
      on_link_fields o (λ lf, bool_decide (target_object_id lf ∈ ns))
  | source_links__source_content_type ct =>
      existsb (λ l, on_link_fields l (λ lf, bool_decide (source_content_type lf = ct)))
              (source_links db o)
  | target_links__target_content_type ct =>
      existsb (λ l, on_link_fields l (λ lf, bool_decide (target_content_type lf = ct)))
              (target_links db o)
  end.

(** Whether the row [o] satisfies [q] in [db]. *)
Fixpoint Q_matches (db : DB) (q : Q) (o : Obj) : bool :=
  match q with
  | Q_ kwargs => forallb (lookup_matches db o) kwargs
  | Q_and a b => Q_matches db a o && Q_matches db b o
  | Q_or a b => Q_matches db a o || Q_matches db b o
  | Q_not a => negb (Q_matches db a o)
  end.

(** [queryset.filter(q)] and [queryset.exclude(q)], for a [Q] whose lookups
    the class of the queryset resolves: the rows they keep. An empty [Q]
    adds no condition to either. *)
Definition qs_filter (db : DB) (q : Q) (queryset : list Obj) : list Obj :=
  filter (λ o, Q_matches db q o) queryset.

Definition qs_exclude (db : DB) (q : Q) (queryset : list Obj) : list Obj :=
  if Q__bool__ q then filter (λ o, negb (Q_matches db q o)) queryset
  else queryset.

(** Whether the class [c] has the field that a lookup starts from. Every
    class has [user] and [pk]; [privacy_setting] comes with
    [PrivacySettingsModel], the generic relations with [NodeModel], the
    source and target columns with [Link]; [User] has no [userprofile]. *)
Definition lookup_resolves (c : ContentType) (l : Lookup) : bool :=
  match l with
  | user_exact _ | user__in _ | pk_exact _ => true
  | privacy_setting_exact _ => issubclass_PrivacySettingsModel c
  | user__userprofile__friends _ | user__userprofile__friends__in _ => false
  | source_content_type_exact _ | source_object_id_exact _ | source_object_id__in _
  | target_content_type_exact _ | target_object_id_exact _ | target_object_id__in _ =>
      bool_decide (c = link)
  | source_links__source_content_type _ | target_links__target_content_type _ =>
      issubclass_NodeModel c
  end.

Fixpoint Q_resolves (c : ContentType) (q : Q) : bool :=
  match q with
  | Q_ kwargs => forallb (lookup_resolves c) kwargs
  | Q_and a b => Q_resolves c a && Q_resolves c b
  | Q_or a b => Q_resolves c a && Q_resolves c b
  | Q_not a => Q_resolves c a
  end.

(** [queryset.filter(q)] and [queryset.exclude(q)] on a queryset of class
    [c]: the call raises [FieldError] when [q] names a field that the class
    does not have, before any row is read. *)
Definition QuerySet_filter (db : DB) (c : ContentType) (q : Q)
    (queryset : list Obj) : result (list Obj) :=
  if Q_resolves c q then Ok (qs_filter db q queryset) else Raise FieldError.

Definition QuerySet_exclude (db : DB) (c : ContentType) (q : Q)
    (queryset : list Obj) : result (list Obj) :=
  if Q_resolves c q then Ok (qs_exclude db q queryset) else Raise FieldError.

(** ** User *)

(** [user.userprofile]: the one-to-one relation of [UserProfile] is declared
    with [related_name="user_profile"], so [User] has no such attribute. *)
Definition User_userprofile (user : nat) : result nat :=
  Raise (AttributeError "'User' object has no attribute 'userprofile'").

(** [user.user_profile]: the property assigned to [User] at the end of the
    module takes the place of the accessor of the relation and reads
    itself, until the call stack is exhausted. *)
Definition User_user_profile (user : nat) : result nat :=
  Raise RecursionError.

(** ** PrivacySettingsModel *)

Module PrivacySettingsModel.

Definition PRIVATE := "private".
Definition FRIENDS := "friends".
Definition FRIENDS_OF_FRIENDS := "friends_of_friends".

(** [def is_viewable_by(self, user)] *)
Definition is_viewable_by (db : DB) (self : Obj) (user : nat) : result bool :=
  if bool_decide (user_id self = user) then Ok true
  else if bool_decide (privacy_setting self = PRIVATE) then Ok false
  else if bool_decide (privacy_setting self = FRIENDS) then
    viewer_profile ← User_userprofile user;
    owner_profile ← User_user_profile (user_id self);
    Ok (UserProfile.is_friends_with db viewer_profile owner_profile)
  else if bool_decide (privacy_setting self = FRIENDS_OF_FRIENDS) then
    viewer_profile ← User_userprofile user;
    owner_profile ← User_user_profile (user_id self);
    if UserProfile.is_friends_with db viewer_profile owner_profile then Ok true
    else
      viewer_profile ← User_user_profile user;
      owner_profile ← User_user_profile (user_id self);
      let user_friends := UserProfile.friends_all db viewer_profile in
      let owner_friends := UserProfile.friends_all db owner_profile in
      let mutual_friends := list_intersection user_friends owner_friends in
      Ok (negb (bool_decide (mutual_friends = [])))
  else Ok false.

(** A call of [obj.is_viewable_by] with [user] and further positional
    arguments [extra]: the method takes one argument besides [self], so
    any further argument is a [TypeError]. *)
Definition call_is_viewable_by (db : DB) (self : Obj) (user : nat)
    (extra : list string) : result bool :=
  match extra with
  | [] => is_viewable_by db self user
  | _ => Raise (TypeError "is_viewable_by() takes 2 positional arguments but 3 were given")
  end.

Definition _get_own_objects_filter (user : nat) : Q :=
  Q_ [user_exact user].

Definition _get_friends_objects_filter (user : nat) : Q :=
  Q_ [privacy_setting_exact FRIENDS; user__userprofile__friends user].

Definition _get_friends_of_friends_objects_filter (db : DB) (user : nat) : result Q :=
  viewer_profile ← User_userprofile user;
  let user_friends := UserProfile.friends_all db viewer_profile in
  Ok (Q__and__
        (Q_ [privacy_setting_exact FRIENDS_OF_FRIENDS;
             user__userprofile__friends__in user_friends])
        (Q__invert__ (Q_ [user__in user_friends]))).

Definition get_privacy_filter (db : DB) (user : nat) (level : string) : result Q :=
  if bool_decide (level = "own") then
    Ok (_get_own_objects_filter user)
  else if bool_decide (level = "friends") then
    Ok (Q__or__ (_get_own_objects_filter user) (_get_friends_objects_filter user))
  else if bool_decide (level = "fof") then
    let own_or_friends :=
      Q__or__ (_get_own_objects_filter user) (_get_friends_objects_filter user) in
    friends_of_friends ← _get_friends_of_friends_objects_filter db user;
    Ok (Q__or__ own_or_friends friends_of_friends)
  else Raise (ValueError "Invalid level provided.").

End PrivacySettingsModel.

(** ** The order of rows *)

(** Where a query leaves the order of rows to the database, wholly or among
    rows that its [ORDER BY] does not tell apart, [position] gives the place
    of each row in the order in which the database returns them. *)
Definition by_position (position : Obj → nat) : relation Obj :=
  λ a b, (position a ≤ position b)%nat.

Global Instance by_position_dec position : RelDecision (by_position position).
Proof. intros a b. unfold by_position. apply _. Defined.

Definition database_order (position : Obj → nat) (rows : list Obj) : list Obj :=
  merge_sort (by_position position) rows.

(** ** NodeModel *)

Module NodeModel.

(** [link.link_type], as the key of its [LinkType] row. *)
Definition link_type_of (l : Obj) : nat :=
  match link_fields l with
  | Some lf => link_type lf
  | None => 0
  end.

(** [Link.Meta.ordering = ['link_type']]: links come ordered by link type,
    the link types in the order of [LinkType] (by name); [name_order] gives
    the place of a link type in that order. *)
Definition by_link_type (name_order : nat → nat) : relation Obj :=
  λ a b, (name_order (link_type_of a) ≤ name_order (link_type_of b))%nat.

Global Instance by_link_type_dec name_order : RelDecision (by_link_type name_order).
Proof. intros a b. unfold by_link_type. apply _. Defined.

(** The links that have [self] as source or as target, ordered by link
    type; links of one type come in the order of the database. *)
Definition all_links (db : DB) (name_order : nat → nat) (position : Obj → nat)
    (self : Obj) : list Obj :=
  let content_type := cls self in
  merge_sort (by_link_type name_order)
    (database_order position
       (qs_filter db
          (Q__or__ (Q_ [source_content_type_exact content_type;
                        source_object_id_exact (pk self)])
                   (Q_ [target_content_type_exact content_type;
                        target_object_id_exact (pk self)]))
          (objects db link))).

Definition related_nodes_filter (self : Obj) (other_model_class : ContentType) : Q :=
  let other_model_content_type := other_model_class in
  let model_content_type := cls self in
  let exclude_conditions := Q_ [] in
  let exclude_conditions :=
    Q__or__ exclude_conditions
            (Q_ [source_links__source_content_type other_model_content_type]) in
  let exclude_conditions :=
    Q__or__ exclude_conditions
            (Q_ [target_links__target_content_type other_model_content_type]) in
  let exclude_conditions :=
    if bool_decide (other_model_class = link) then
      Q__or__
        (Q__or__ exclude_conditions
                 (Q_ [source_content_type_exact model_content_type;
                      source_object_id_exact (pk self)]))
        (Q_ [target_content_type_exact model_content_type;
             target_object_id_exact (pk self)])
    else exclude_conditions in
  let exclude_conditions :=
    if bool_decide (cls self = other_model_class) then
      Q__or__ exclude_conditions (Q_ [pk_exact (pk self)])
    else exclude_conditions in
  exclude_conditions.

(** [a == b] between a resolved generic foreign key and a model instance:
    same class and same primary key; [None] equals no instance. *)
Definition model_eq (a : option Obj) (b : Obj) : bool :=
  match a with
  | Some a => bool_decide (cls a = cls b) && bool_decide (pk a = pk b)
  | None => false
  end.

(** [link.source_content_object] and [link.target_content_object] *)
Definition source_content_object (db : DB) (l : Obj) : option Obj :=
  lf ← link_fields l; content_object db (source_content_type lf) (source_object_id lf).

Definition target_content_object (db : DB) (l : Obj) : option Obj :=
  lf ← link_fields l; content_object db (target_content_type lf) (target_object_id lf).

(** The object that [all_linked_objects] appends for one link. *)
Definition linked_object (db : DB) (self link : Obj) : option Obj :=
  if model_eq (target_content_object db link) self
  then source_content_object db link
  else target_content_object db link.

Definition all_linked_objects (db : DB) (name_order : nat → nat)
    (position : Obj → nat) (self : Obj) : list (option Obj) :=
  linked_object db self <$> all_links db name_order position self.






End NodeModel.

(** ** Link *)

Module Link.

(** [isinstance(content_object, other_model_class)] for a generic foreign
    key: false when the key resolves to nothing. *)
Definition isinstance_content_object (db : DB) (ct : ContentType) (id : nat)
    (other_model_class : ContentType) : bool :=
  match content_object db ct id with
  | Some o => bool_decide (cls o = other_model_class)
  | None => false
  end.

Definition related_nodes_filter (db : DB) (self : Obj)
    (other_model_class : ContentType) : Q :=
  let exclude_conditions := NodeModel.related_nodes_filter self other_model_class in
  match link_fields self with
  | None => exclude_conditions
  | Some lf =>
      let exclude_conditions :=
        if isinstance_content_object db (source_content_type lf) (source_object_id lf)
             other_model_class
        then Q__or__ exclude_conditions (Q_ [pk_exact (source_object_id lf)])
        else exclude_conditions in
      let exclude_conditions :=
        if isinstance_content_object db (target_content_type lf) (target_object_id lf)
             other_model_class
        then Q__or__ exclude_conditions (Q_ [pk_exact (target_object_id lf)])
        else exclude_conditions in
      exclude_conditions
  end.

(** Depth of the interpreter's call stack. *)
Definition recursion_limit : nat := 1000.

(** [def is_viewable_by(self, user, privacy_level='fof')]. Each endpoint
    is asked [is_viewable_by(user, privacy_level)]: a link endpoint runs
    this method again, a memo, reference or inkling runs the method of
    [PrivacySettingsModel] with one argument too many, a tag has no such
    method and an unresolved key is [None]. [and] evaluates its right
    operand only when the left one is true. *)
Fixpoint is_viewable_by_at (depth : nat) (db : DB) (self : Obj) (user : nat)
    (privacy_level : string) : result bool :=
  match depth with
  | 0 => Raise RecursionError
  | S depth =>
      let endpoint ct id :=
        match content_object db ct id with
        | None => Raise (AttributeError "'NoneType' object has no attribute 'is_viewable_by'")
        | Some o =>
            match cls o with
            | link => is_viewable_by_at depth db o user privacy_level
            | tag => Raise (AttributeError "'Tag' object has no attribute 'is_viewable_by'")
            | _ => PrivacySettingsModel.call_is_viewable_by db o user [privacy_level]
            end
        end in
      match link_fields self with
      | None => Raise (AttributeError "'Obj' object has no attribute 'source_content_object'")
      | Some lf =>
          source_viewable ← endpoint (source_content_type lf) (source_object_id lf);
          if source_viewable : bool
          then endpoint (target_content_type lf) (target_object_id lf)
          else Ok false
      end
  end.

Definition is_viewable_by : DB → Obj → nat → string → result bool :=
  is_viewable_by_at recursion_limit.

(** [ContentType.objects.filter(app_label='app', model__in=[...])] *)
Definition node_content_types : list ContentType :=
  filter (λ ct, model_name ct ∈ ["memo"; "reference"; "inkling"]) all_content_types.

(** The loop of [get_privacy_filter] over the content types still to
    visit. The classes it meets take [get_privacy_filter] from
    [PrivacySettingsModel]; [node_model.objects.filter(model_filter)] is
    called when the condition is built. *)
Fixpoint get_privacy_filter_loop (db : DB) (user : nat) (privacy_level : string)
    (content_types : list ContentType) (combined_filters : Q) : result Q :=
  match content_types with
  | [] => Ok combined_filters
  | content_type :: content_types =>
      let node_model := content_type in
      if issubclass_PrivacySettingsModel node_model then
        model_filter ← PrivacySettingsModel.get_privacy_filter db user privacy_level;
        viewable_rows ← QuerySet_filter db node_model model_filter (objects db node_model);
        let viewable := pk <$> viewable_rows in
        get_privacy_filter_loop db user privacy_level content_types
          (Q__or__ combined_filters
             (Q__and__
                (Q_ [source_content_type_exact content_type; source_object_id__in viewable])
                (Q_ [target_content_type_exact content_type; target_object_id__in viewable])))
      else
        get_privacy_filter_loop db user privacy_level content_types combined_filters
  end.

Definition get_privacy_filter (db : DB) (user : nat) (privacy_level : string) : result Q :=
  get_privacy_filter_loop db user privacy_level node_content_types (Q_ []).

End Link.

(** Method resolution: [Link] overrides [related_nodes_filter] and
    [get_privacy_filter]; the other classes inherit them. *)
Definition related_nodes_filter (db : DB) (self : Obj) (other_model_class : ContentType) : Q :=
  if bool_decide (cls self = link)
  then Link.related_nodes_filter db self other_model_class
  else NodeModel.related_nodes_filter self other_model_class.

Definition get_privacy_filter (c : ContentType) (db : DB) (user : nat)
    (level : string) : result Q :=
  if bool_decide (c = link)
  then Link.get_privacy_filter db user level
  else PrivacySettingsModel.get_privacy_filter db user level.

(** ** EmbeddableModel *)

(** Comparison of a distance that may be NULL: a NULL distance is below no
    threshold and sorts last. *)
Definition distance__lt (d : option Qc) (threshold : Qc) : bool :=
  match d with
  | Some x => bool_decide (x < threshold)%Qc
  | None => false
  end.

Definition distance_le (a b : option Qc) : Prop :=
  match a, b with
  | Some x, Some y => (x ≤ y)%Qc
  | _, None => True
  | None, Some _ => False
  end.

Global Instance distance_le_dec : RelDecision distance_le.
Proof. intros [x|] [y|]; simpl; apply _. Defined.

Section EmbeddableModel.

(** The distance operator of the vector extension, first operand the stored
    vector, second the query vector. *)
Variable CosineDistance : list Qc → list Qc → Qc.

(** The order in which the database returns rows at equal distance. *)
Variable position : Obj → nat.

Definition distance (embedding_ : list Qc) (o : Obj) : option Qc :=
  (λ e, CosineDistance e embedding_) <$> embedding o.

Definition by_distance (embedding_ : list Qc) : relation Obj :=
  λ a b, distance_le (distance embedding_ a) (distance embedding_ b).

Global Instance by_distance_dec embedding_ : RelDecision (by_distance embedding_).
Proof. intros a b. unfold by_distance. apply _. Defined.

(** [queryset[:limit]] *)
Definition slice_to (limit : Z) (queryset : list Obj) : result (list Obj) :=
  if bool_decide (limit < 0)%Z
  then Raise (ValueError "Negative indexing is not supported.")
  else Ok (take (Z.to_nat limit) queryset).

(** [order_by('distance')]: by distance, rows at equal distance in the
    order of the database. *)
Definition order_by_distance (embedding_ : list Qc) (queryset : list Obj) : list Obj :=
  merge_sort (by_distance embedding_) (database_order position queryset).

(** [get_similar_objects(cls, embedding, user, exclude_filter=None,
    limit=None, filter_theshold=0.7, privacy_level='own')]. [filter] and
    [exclude] raise when they are called with a [Q] that the class does not
    resolve. [if limit:] is false for [None] and for 0. *)
Definition get_similar_objects (db : DB) (c : ContentType) (embedding_ : list Qc)
    (user : nat) (exclude_filter : option Q) (limit : option Z)
    (filter_theshold : Qc) (privacy_level : string) : result (list Obj) :=
  let queryset :=
    order_by_distance embedding_
      (filter (λ o, distance__lt (distance embedding_ o) filter_theshold)
              (objects db c)) in
  privacy_filter ←
    (if issubclass_PrivacySettingsModel c
     then get_privacy_filter c db user privacy_level
     else Ok (Q_ [user_exact user]));
  queryset ← QuerySet_filter db c privacy_filter queryset;
  queryset ←
    match exclude_filter with
    | Some q => QuerySet_exclude db c q queryset
    | None => Ok queryset
    end;
  match limit with
  | Some n => if bool_decide (n ≠ 0%Z) then slice_to n queryset else Ok queryset
  | None => Ok queryset
  end.

(** The distance of the row is known and below the threshold. *)
Definition below (embedding_ : list Qc) (threshold : Qc) (o : Obj) : Prop :=
  ∃ d, distance embedding_ o = Some d ∧ (d < threshold)%Qc.

(** The rows of [db] within the threshold, nearest first: the queryset
    that [get_similar_objects] starts from. *)
Definition nearest (db : DB) (c : ContentType) (embedding_ : list Qc)
    (threshold : Qc) : list Obj :=
  order_by_distance embedding_
    (filter (λ o, distance__lt (distance embedding_ o) threshold) (objects db c)).

End EmbeddableModel.

(** ** Fixtures *)

(** Rows with the columns that the examples do not vary left at their
    defaults. *)
Definition node (c : ContentType) (id owner : nat) (privacy : string) : Obj :=
  {| cls := c; pk := id; user_id := owner; privacy_setting := privacy;
     embedding := None; link_fields := None |}.

Definition node_at (c : ContentType) (id owner : nat) (e : list Qc) : Obj :=
  {| cls := c; pk := id; user_id := owner; privacy_setting := "private";
     embedding := Some e; link_fields := None |}.

Definition link_between (id owner : nat) (s : ContentType) (sid : nat)
    (t : ContentType) (tid : nat) : Obj :=
  {| cls := link; pk := id; user_id := owner; privacy_setting := "private";
     embedding := None;
     link_fields := Some {| source_content_type := s; source_object_id := sid;
                            target_content_type := t; target_object_id := tid;
                            link_type := 1 |} |}.

Definition with_objects (db : DB) (os : list Obj) : DB :=
  {| all_objects := os; friends := friends db;
     friend_requests := friend_requests db |}.

(** The database a call leaves behind, the unchanged one if it raised. *)
Definition after (db : DB) (r : result DB) : DB :=
  match r with
  | Ok db' => db'
  | Raise _ => db
  end.

(** User [a] asks user [b], who accepts. *)
Definition befriend (db : DB) (a b : nat) : DB :=
  let db := after db (UserProfile.send_friend_request db a b) in
  after db (UserProfile.accept_friend_request db b a).

(** The friendship relation holds in both directions. *)
Definition symmetric_friends (db : DB) : Prop :=
  set_Forall (λ r, (r.2, r.1) ∈ friends db) (friends db).

(** [c] is the source or the target of the link row [l]. *)
Definition endpoint_of (c l : Obj) : bool :=
  on_link_fields l (λ lf,
    (bool_decide (source_content_type lf = cls c) && bool_decide (source_object_id lf = pk c))
    || (bool_decide (target_content_type lf = cls c) && bool_decide (target_object_id lf = pk c))).

(** Users 1 and 2 are friends; user 2 owns memo 1, shared with friends, and
    memo 2, shared with friends of friends. *)
Definition two_friends : DB :=
  with_objects (befriend empty_db 1 2)
    [node memo 1 2 "friends"; node memo 2 2 "friends_of_friends"].

(** Memo 1 and memo 2 are linked to each other, memo 3 to memo 4; user 1
    owns everything. *)
Definition four_memos : DB :=
  with_objects empty_db
    [node memo 1 1 "private"; node memo 2 1 "private";
     node memo 3 1 "private"; node memo 4 1 "private";
     link_between 1 1 memo 1 memo 2; link_between 2 1 memo 3 memo 4].

(** User 1 owns memo 1, memo 2 and reference 1; link 1 joins the two memos,
    link 2 joins memo 1 and the reference, link 3 joins link 1 and memo 2. *)
Definition linked_notes : DB :=
  with_objects empty_db
    [node memo 1 1 "private"; node memo 2 1 "private"; node reference 1 1 "private";
     link_between 1 1 memo 1 memo 2;
     link_between 2 1 memo 1 reference 1;
     link_between 3 1 link 1 memo 2].

(** Cosine distance between unit vectors: one minus the inner product. *)
Definition dot (a b : list Qc) : Qc := foldr Qcplus 0%Qc (zip_with Qcmult a b).

Definition unit_cosine_distance (stored query : list Qc) : Qc :=
  (1 - dot stored query)%Qc.

Definition fifth (n : Z) : Qc := Q2Qc (n # 5).

(** Four memos of user 1 at distances 2/5, 1, 0 and 1/5 from the query
    vector (1, 0). *)
Definition four_vectors : DB :=
  with_objects empty_db
    [node_at memo 1 1 [fifth 3; fifth 4];
     node_at memo 2 1 [fifth 0; fifth 5];
     node_at memo 3 1 [fifth 5; fifth 0];
     node_at memo 4 1 [fifth 4; fifth 3]].

Definition query_vector : list Qc := [fifth 5; fifth 0].

(** A tag of user 1 and a tag of user 2, both at distance 0 from the query
    vector. *)
Definition two_tags : DB :=
  with_objects empty_db
    [node_at tag 1 1 [fifth 5; fifth 0]; node_at tag 2 2 [fifth 5; fifth 0]].

(** ** Notions used in the statements *)

(** The first two conditions of [related_nodes_filter]: the candidate is
    the source of some link, or the target of some link. *)
Definition in_some_link (other : ContentType) : Q :=
  Q_or (Q_ [source_links__source_content_type other])
       (Q_ [target_links__target_content_type other]).

(** The condition that [Link.get_privacy_filter] builds for one content
    type: source and target are both of that type and both among the rows
    that [model_filter] selects. *)
Definition both_ends_in (db : DB) (model_filter : Q) (content_type : ContentType) : Q :=
  let viewable := pk <$> qs_filter db model_filter (objects db content_type) in
  Q_and (Q_ [source_content_type_exact content_type; source_object_id__in viewable])
        (Q_ [target_content_type_exact content_type; target_object_id__in viewable]).

(** The four operations of [UserProfile] that write, as data, and a run of
    them one after the other. *)
Inductive FriendOp :=
  | SendRequest (self receiver_profile : nat)
  | AcceptRequest (self sender_profile : nat)
  | RejectRequest (self sender_profile : nat)
  | RemoveFriend (self friend_profile : nat).

Definition run_op (db : DB) (op : FriendOp) : result DB :=
  match op with
  | SendRequest self receiver_profile =>
      UserProfile.send_friend_request db self receiver_profile
  | AcceptRequest self sender_profile =>
      UserProfile.accept_friend_request db self sender_profile
  | RejectRequest self sender_profile =>
      UserProfile.reject_friend_request db self sender_profile
  | RemoveFriend self friend_profile =>
      UserProfile.remove_friend db self friend_profile
  end.

Definition run_ops (db : DB) (ops : list FriendOp) : DB :=
  foldl (λ db op, after db (run_op db op)) db ops.

(** The privacy filter that [get_similar_objects] applies. *)
Definition search_privacy_filter (c : ContentType) (db : DB) (user : nat)
    (privacy_level : string) : result Q :=
  if issubclass_PrivacySettingsModel c
  then get_privacy_filter c db user privacy_level
  else Ok (Q_ [user_exact user]).

(** Whether [exclude_filter] lets the row through. *)
Definition not_excluded (db : DB) (exclude_filter : option Q) (o : Obj) : bool :=
  match exclude_filter with
  | Some q => negb (Q__bool__ q && Q_matches db q o)
  | None => true
  end.

(** The rows of a table that a link-visibility condition may refer to: the
    primary keys that [model_filter] selects in the table of
    [content_type]. *)
Definition viewable_pks (db : DB) (model_filter : Q) (content_type : ContentType)
    : list nat :=
  pk <$> qs_filter db model_filter (objects db content_type).

(** Whether the bulk filter of [level] for [viewer], applied to a queryset
    of the class of [o] that holds the row [o], keeps the row. *)
Definition selected_at (db : DB) (viewer : nat) (level : string) (o : Obj)
    : result bool :=
  q ← PrivacySettingsModel.get_privacy_filter db viewer level;
  rows ← QuerySet_filter db (cls o) q [o];
  Ok (bool_decide (o ∈ rows)).

(** The end of the link [l] that is not [n], as a resolved reference: the
    source when the target refers to [n], the target otherwise. *)
Definition opposite_end (db : DB) (n l : Obj) : option Obj :=
  lf ← link_fields l;
  if bool_decide (target_content_type lf = cls n ∧ target_object_id lf = pk n)
  then content_object db (source_content_type lf) (source_object_id lf)
  else content_object db (target_content_type lf) (target_object_id lf).


(** The rows that [get_similar_objects] has before it applies the limit. *)
Definition unlimited (CosineDistance : list Qc → list Qc → Qc)
    (position : Obj → nat) (db : DB)
    (c : ContentType) (embedding_ : list Qc) (threshold : Qc)
    (privacy_filter : Q) (exclude_filter : option Q) : list Obj :=
  let queryset :=
    qs_filter db privacy_filter
      (nearest CosineDistance position db c embedding_ threshold) in
  match exclude_filter with
  | Some q => qs_exclude db q queryset
  | None => queryset
  end.

(** * Properties *)

(** ** Friendship graph *)

Section friendship.
Context (db : DB).
Implicit Types a b self : nat.

Lemma elem_of_friends_all a b :
  b ∈ UserProfile.friends_all db a ↔ (a, b) ∈ friends db.
Proof.
  unfold UserProfile.friends_all. rewrite list_elem_of_fmap. split.
  - intros [[a' b'] [-> [Ha Hin]%list_elem_of_filter]]. simpl in *. subst a'.
    by apply elem_of_elements.
  - intros Hin. exists (a, b). split; [done|].
    apply list_elem_of_filter. split; [done|]. by apply elem_of_elements.
Qed.

Lemma is_friends_with_true a b :
  UserProfile.is_friends_with db a b = true ↔ (a, b) ∈ friends db.
Proof.
  unfold UserProfile.is_friends_with.
  by rewrite bool_decide_eq_true, elem_of_friends_all.
Qed.

Lemma is_friends_with_false a b :
  UserProfile.is_friends_with db a b = false ↔ (a, b) ∉ friends db.
Proof.
  unfold UserProfile.is_friends_with.
  by rewrite bool_decide_eq_false, elem_of_friends_all.
Qed.

Lemma has_sent_request_to_true a b :
  UserProfile.has_sent_request_to db a b = true ↔ (a, b) ∈ friend_requests db.
Proof. unfold UserProfile.has_sent_request_to. by rewrite bool_decide_eq_true. Qed.

Lemma symmetric_friends_sym a b :
  symmetric_friends db → (a, b) ∈ friends db → (b, a) ∈ friends db.
Proof. intros Hsym Hin. exact (Hsym (a, b) Hin). Qed.

Lemma friends_add_symmetric a b :
  symmetric_friends db → symmetric_friends (UserProfile.friends_add db a b).
Proof.
  intros Hsym [x y]. unfold UserProfile.friends_add. simpl.
  rewrite !elem_of_union. intros [Hin | Hnew].
  - left. exact (Hsym (x, y) Hin).
  - right. rewrite !elem_of_singleton in Hnew |- *.
    destruct Hnew as [[= -> ->]|[= -> ->]]; auto.
Qed.

Lemma friends_remove_symmetric a b :
  symmetric_friends db → symmetric_friends (UserProfile.friends_remove db a b).
Proof.
  intros Hsym [x y]. unfold UserProfile.friends_remove. simpl.
  rewrite !elem_of_difference. intros [Hin Hnot]. split.
  - exact (Hsym (x, y) Hin).
  - intros Hmirror. apply Hnot.
    rewrite elem_of_union, !elem_of_singleton in Hmirror |- *.
    destruct Hmirror as [[= -> ->]|[= -> ->]]; auto.
Qed.

End friendship.

Lemma accept_friend_request_symmetric db self sender db' :
  symmetric_friends db →
  UserProfile.accept_friend_request db self sender = Ok db' →
  symmetric_friends db'.
Proof.
  intros Hsym. unfold UserProfile.accept_friend_request.
  destruct (UserProfile.has_sent_request_to db sender self); intros [= <-]; [|done].
  apply (friends_add_symmetric (UserProfile.friends_add db self sender)).
  by apply friends_add_symmetric.
Qed.

(** C4, as the code has it: [send_friend_request] makes no difference
    between a receiver that is the sender and any other receiver. A request
    of a user to itself raises nothing, and a pending request of the user to
    itself exists afterwards exactly when one was pending before or the user
    was not in its own friend list. *)
Theorem send_friend_request_self (db : DB) (u : nat) :
  ∃ db', UserProfile.send_friend_request db u u = Ok db'
    ∧ UserProfile.has_sent_request_to db' u u
      = UserProfile.has_sent_request_to db u u
        || negb (UserProfile.is_friends_with db u u).
Proof.
  unfold UserProfile.send_friend_request.
  destruct (UserProfile.has_sent_request_to db u u) eqn:Hsent; simpl.
  - by exists db.
  - destruct (UserProfile.is_friends_with db u u) eqn:Hfr; simpl.
    + by exists db.
    + eexists. split; [done|].
      apply has_sent_request_to_true. simpl. set_solver.
Qed.

(** C4, refuted as stated: on the empty database user 1 asks itself; the
    call returns, and the request from 1 to 1 is pending afterwards. *)
Lemma send_friend_request_self_creates :
  ¬ raises (UserProfile.send_friend_request empty_db 1 1)
  ∧ UserProfile.has_sent_request_to
      (after empty_db (UserProfile.send_friend_request empty_db 1 1)) 1 1 = true.
Proof.
  split.
  - intros [e He]. vm_compute in He. discriminate He.
  - vm_compute. reflexivity.
Qed.

(** C5: when a request from [A] to [B] is pending and [B] accepts it, [A]
    and [B] are friends of each other afterwards and the request from [A]
    to [B] is gone. *)
Theorem accept_friend_request_befriends (db : DB) (A B : nat) :
  UserProfile.has_sent_request_to db A B = true →
  ∃ db', UserProfile.accept_friend_request db B A = Ok db'
    ∧ UserProfile.is_friends_with db' A B = true
    ∧ UserProfile.is_friends_with db' B A = true
    ∧ UserProfile.has_sent_request_to db' A B = false.
Proof.
  intros Hsent. unfold UserProfile.accept_friend_request. rewrite Hsent.
  eexists. split; [reflexivity|]. repeat split.
  - apply is_friends_with_true. simpl. set_solver.
  - apply is_friends_with_true. simpl. set_solver.
  - apply bool_decide_eq_false. simpl.
    rewrite elem_of_difference, elem_of_singleton. by intros [_ Hne].
Qed.

Lemma accept_friend_request_befriends_witness :
  let db := after empty_db (UserProfile.send_friend_request empty_db 1 2) in
  UserProfile.has_sent_request_to db 1 2 = true
  ∧ ∃ db', UserProfile.accept_friend_request db 2 1 = Ok db'
    ∧ UserProfile.is_friends_with db' 1 2 = true
    ∧ UserProfile.is_friends_with db' 2 1 = true
    ∧ UserProfile.has_sent_request_to db' 1 2 = false.
Proof.
  split.
  - vm_compute. reflexivity.
  - apply accept_friend_request_befriends. vm_compute. reflexivity.
Defined.

(** ** Visibility filters *)

Section visibility.
Context (db : DB).
Implicit Types (o : Obj) (viewer : nat) (c : ContentType).

Import PrivacySettingsModel.


Lemma get_privacy_filter_friends viewer :
  PrivacySettingsModel.get_privacy_filter db viewer "friends"
  = Ok (Q_or (_get_own_objects_filter viewer) (_get_friends_objects_filter viewer)).
Proof. reflexivity. Qed.

Lemma get_privacy_filter_fof viewer :
  PrivacySettingsModel.get_privacy_filter db viewer "fof"
  = Raise (AttributeError "'User' object has no attribute 'userprofile'").
Proof. reflexivity. Qed.

Lemma get_privacy_filter_invalid viewer level :
  level ∉ ["own"; "friends"; "fof"] →
  PrivacySettingsModel.get_privacy_filter db viewer level
  = Raise (ValueError "Invalid level provided.").
Proof.
  intros Hlevel. unfold PrivacySettingsModel.get_privacy_filter.
  repeat case_bool_decide; try done; subst; exfalso; apply Hlevel; set_solver.
Qed.

(** The filter is built at two levels only. *)
Lemma get_privacy_filter_Ok viewer level q :
  PrivacySettingsModel.get_privacy_filter db viewer level = Ok q →
  (level = "own" ∧ q = _get_own_objects_filter viewer)
  ∨ (level = "friends"
     ∧ q = Q_or (_get_own_objects_filter viewer) (_get_friends_objects_filter viewer)).
Proof.
  unfold PrivacySettingsModel.get_privacy_filter.
  repeat case_bool_decide; subst; try discriminate.
  - intros [= <-]. by left.
  - intros [= <-]. by right.
Qed.



Lemma friends_filter_unresolved viewer c :
  Q_resolves c (Q_or (_get_own_objects_filter viewer)
                     (_get_friends_objects_filter viewer)) = false.
Proof. simpl. by rewrite andb_false_r. Qed.





Lemma selected_at_friends viewer o :
  selected_at db viewer "friends" o = Raise FieldError.
Proof.
  unfold selected_at. rewrite get_privacy_filter_friends. cbn [mbind result_bind].
  unfold QuerySet_filter. by rewrite friends_filter_unresolved.
Qed.

Lemma selected_at_fof viewer o :
  selected_at db viewer "fof" o
  = Raise (AttributeError "'User' object has no attribute 'userprofile'").
Proof. reflexivity. Qed.

End visibility.

(** C1, where the code departs from it: in [two_friends] user 2 owns memo 1
    and shares it with friends. The single-object check answers yes to the
    owner. The bulk predicate selects the memo for the owner at level [own],
    but at level [friends] the filter it builds names [user__userprofile],
    which no class resolves, so applying it raises, and at level [fof]
    building it raises on [user.userprofile]. For user 1, a friend of the
    owner, the single-object check raises on [user.userprofile] too. *)
Theorem is_viewable_by_and_filter_diverge :
  let memo1 := node memo 1 2 "friends" in
  PrivacySettingsModel.is_viewable_by two_friends memo1 2 = Ok true
  ∧ selected_at two_friends 2 "own" memo1 = Ok true
  ∧ selected_at two_friends 2 "friends" memo1 = Raise FieldError
  ∧ selected_at two_friends 2 "fof" memo1
    = Raise (AttributeError "'User' object has no attribute 'userprofile'")
  ∧ UserProfile.is_friends_with two_friends 1 2 = true
  ∧ PrivacySettingsModel.is_viewable_by two_friends memo1 1
    = Raise (AttributeError "'User' object has no attribute 'userprofile'").
Proof. repeat split; vm_compute; reflexivity. Qed.

(** C6, where the code departs from it: for user 2 in [two_friends] the
    filter of level [own] selects the two memos of user 2. The filter of
    level [friends] is built, but applying it to the table of memos raises,
    because it names [user__userprofile]; the filter of level [fof] is not
    built, because [user.userprofile] raises. There is no selection at
    either level that could contain the selection of the level below. *)
Theorem privacy_levels_above_own_raise :
  (q ← PrivacySettingsModel.get_privacy_filter two_friends 2 "own";
   QuerySet_filter two_friends memo q (objects two_friends memo))
  = Ok [node memo 1 2 "friends"; node memo 2 2 "friends_of_friends"]
  ∧ (∃ q, PrivacySettingsModel.get_privacy_filter two_friends 2 "friends" = Ok q
       ∧ QuerySet_filter two_friends memo q (objects two_friends memo)
         = Raise FieldError)
  ∧ PrivacySettingsModel.get_privacy_filter two_friends 2 "fof"
    = Raise (AttributeError "'User' object has no attribute 'userprofile'").
Proof.
  split; [vm_compute; reflexivity|]. split; [|reflexivity].
  eexists. split; [reflexivity|]. vm_compute. reflexivity.
Qed.

(** C8: a level other than [own], [friends] and [fof] makes
    [get_privacy_filter] raise, on [PrivacySettingsModel] and on every class
    that derives from it. *)
Theorem get_privacy_filter_unknown_level (db : DB) (viewer : nat) (level : string) :
  level ∉ ["own"; "friends"; "fof"] →
  PrivacySettingsModel.get_privacy_filter db viewer level
  = Raise (ValueError "Invalid level provided.")
  ∧ ∀ c, issubclass_PrivacySettingsModel c = true →
         get_privacy_filter c db viewer level
         = Raise (ValueError "Invalid level provided.").
Proof.
  intros Hlevel.
  pose proof (get_privacy_filter_invalid db viewer level Hlevel) as Hraise.
  split; [done|]. intros c _. unfold get_privacy_filter.
  case_bool_decide; [|done].
  unfold Link.get_privacy_filter. simpl. by rewrite Hraise.
Qed.

Lemma get_privacy_filter_unknown_level_witness :
  PrivacySettingsModel.get_privacy_filter two_friends 1 "public"
  = Raise (ValueError "Invalid level provided.")
  ∧ get_privacy_filter link two_friends 1 "public"
    = Raise (ValueError "Invalid level provided.").
Proof.
  destruct (get_privacy_filter_unknown_level two_friends 1 "public") as [Hbase Hall].
  - intros Hin. vm_compute in Hin. 
    repeat (apply elem_of_cons in Hin as [Hin|Hin]; [discriminate Hin|]).
    by apply elem_of_nil in Hin.
  - split; [exact Hbase|]. apply Hall. reflexivity.
Defined.

(** ** Exclusion of related nodes *)

Section related_nodes.
Context (db : DB).
Implicit Types (n c l : Obj) (other : ContentType).

Lemma Q__or__nonempty_l (a b : Q) :
  Q__bool__ a = true → Q__bool__ (Q__or__ a b) = true.
Proof.
  intros Ha. unfold Q__or__. rewrite Ha. simpl.
  by destruct (Q__bool__ b) eqn:Hb.
Qed.

Lemma Q__or__matches_l (a b : Q) (o : Obj) :
  Q__bool__ a = true → Q_matches db a o = true →
  Q_matches db (Q__or__ a b) o = true.
Proof.
  intros Ha Hm. unfold Q__or__. rewrite Ha. simpl.
  destruct (Q__bool__ b); simpl; [|done]. by rewrite Hm.
Qed.

Lemma NodeModel_filter_keeps n other c :
  Q_matches db (in_some_link other) c = true →
  Q__bool__ (NodeModel.related_nodes_filter n other) = true
  ∧ Q_matches db (NodeModel.related_nodes_filter n other) c = true.
Proof.
  intros Hbase. unfold NodeModel.related_nodes_filter.
  change (Q__or__ (Q__or__ (Q_ []) (Q_ [source_links__source_content_type other]))
                  (Q_ [target_links__target_content_type other]))
    with (in_some_link other).
  assert (Q__bool__ (in_some_link other) = true) as Hne by done.
  repeat case_bool_decide;
    auto using Q__or__nonempty_l, Q__or__matches_l.
Qed.

Lemma Link_filter_keeps n other c :
  Q_matches db (in_some_link other) c = true →
  Q__bool__ (Link.related_nodes_filter db n other) = true
  ∧ Q_matches db (Link.related_nodes_filter db n other) c = true.
Proof.
  intros Hbase. unfold Link.related_nodes_filter.
  destruct (NodeModel_filter_keeps n other c Hbase) as [Hne Hm].
  destruct (link_fields n) as [lf|]; [|done].
  repeat match goal with
         | |- context [if ?b then _ else _] => destruct b
         end;
    auto using Q__or__nonempty_l, Q__or__matches_l.
Qed.

Lemma related_nodes_filter_keeps n other c :
  Q_matches db (in_some_link other) c = true →
  Q__bool__ (related_nodes_filter db n other) = true
  ∧ Q_matches db (related_nodes_filter db n other) c = true.
Proof.
  intros Hbase. unfold related_nodes_filter.
  case_bool_decide; auto using Link_filter_keeps, NodeModel_filter_keeps.
Qed.

Lemma endpoint_in_some_link c l :
  l ∈ objects db link → endpoint_of c l = true →
  Q_matches db (in_some_link (cls c)) c = true.
Proof.
  intros Hl Hend. unfold endpoint_of, on_link_fields in Hend.
  destruct (link_fields l) as [lf|] eqn:Hlf; [|done].
  cbn [Q_matches in_some_link forallb lookup_matches]. rewrite !andb_true_r.
  apply orb_true_iff.
  apply orb_true_iff in Hend as [Hsrc|Htgt]; [left|right];
    apply existsb_exists; exists l; (split; [apply list_elem_of_In|]).
  - unfold source_links. apply list_elem_of_filter. split; [|done].
    unfold on_link_fields. rewrite Hlf. by apply Is_true_true.
  - unfold on_link_fields. rewrite Hlf.
    apply andb_true_iff in Hsrc as [Hct _]. done.
  - unfold target_links. apply list_elem_of_filter. split; [|done].
    unfold on_link_fields. rewrite Hlf. by apply Is_true_true.
  - unfold on_link_fields. rewrite Hlf.
    apply andb_true_iff in Htgt as [Hct _]. done.
Qed.

(** A candidate that is an endpoint of any link row is matched by the
    exclusion filter of every node, and dropped by [exclude]. *)
Lemma endpoint_excluded n c l :
  l ∈ objects db link → endpoint_of c l = true →
  Q_matches db (related_nodes_filter db n (cls c)) c = true
  ∧ c ∉ qs_exclude db (related_nodes_filter db n (cls c)) (objects db (cls c)).
Proof.
  intros Hl Hend.
  destruct (related_nodes_filter_keeps n (cls c) c
              (endpoint_in_some_link c l Hl Hend)) as [Hne Hm].
  split; [done|]. unfold qs_exclude. rewrite Hne.
  intros [Hneg _]%list_elem_of_filter. rewrite Hm in Hneg. done.
Qed.

Lemma elem_of_all_links name_order position n l :
  l ∈ NodeModel.all_links db name_order position n
  ↔ l ∈ qs_filter db
          (Q__or__ (Q_ [source_content_type_exact (cls n);
                        source_object_id_exact (pk n)])
                   (Q_ [target_content_type_exact (cls n);
                        target_object_id_exact (pk n)]))
          (objects db link).
Proof.
  unfold NodeModel.all_links, database_order.
  by rewrite !merge_sort_Permutation.
Qed.

Lemma all_links_are_links name_order position n l :
  l ∈ NodeModel.all_links db name_order position n → l ∈ objects db link.
Proof.
  rewrite elem_of_all_links. unfold qs_filter.
  by intros [_ Hl]%list_elem_of_filter.
Qed.

End related_nodes.

(** C7: for a node [n] and a candidate [c] of a node class, if [c] is an
    endpoint of a link touching [n] then the exclusion filter built for [n]
    and the class of [c] matches [c], and [exclude] drops it from the
    candidates. *)
Theorem related_nodes_filter_excludes_linked (db : DB) (name_order : nat → nat)
    (position : Obj → nat) (n c l : Obj) :
  issubclass_NodeModel (cls n) = true →
  issubclass_NodeModel (cls c) = true →
  l ∈ NodeModel.all_links db name_order position n →
  endpoint_of c l = true →
  Q_matches db (related_nodes_filter db n (cls c)) c = true
  ∧ c ∉ qs_exclude db (related_nodes_filter db n (cls c)) (objects db (cls c)).
Proof.
  intros _ _ Hl Hend. apply (endpoint_excluded db n c l); [|done].
  by apply all_links_are_links in Hl.
Qed.

Lemma related_nodes_filter_excludes_linked_witness :
  let n := node memo 1 1 "private" in
  let c := node memo 2 1 "private" in
  let l := link_between 1 1 memo 1 memo 2 in
  l ∈ NodeModel.all_links four_memos id pk n
  ∧ endpoint_of c l = true
  ∧ Q_matches four_memos (related_nodes_filter four_memos n memo) c = true
  ∧ c ∉ qs_exclude four_memos (related_nodes_filter four_memos n memo)
         (objects four_memos memo).
Proof.
  intros n c l.
  assert (l ∈ NodeModel.all_links four_memos id pk n) as Hl
    by (vm_compute; left).
  assert (endpoint_of c l = true) as Hend by (vm_compute; reflexivity).
  split; [exact Hl|]. split; [exact Hend|].
  exact (related_nodes_filter_excludes_linked four_memos id pk n c l
           eq_refl eq_refl Hl Hend).
Defined.

(** C10: for a node [n] and a candidate [c] of a node class, if [c] is the
    source or the target of any link row then the exclusion filter built
    for [n] and the class of [c] matches [c], and [exclude] drops it from
    the candidates, whether or not that link touches [n]. *)
Theorem related_nodes_filter_excludes_any_endpoint (db : DB) (n c l : Obj) :
  issubclass_NodeModel (cls n) = true →
  issubclass_NodeModel (cls c) = true →
  l ∈ objects db link →
  endpoint_of c l = true →
  Q_matches db (related_nodes_filter db n (cls c)) c = true
  ∧ c ∉ qs_exclude db (related_nodes_filter db n (cls c)) (objects db (cls c)).
Proof. intros _ _. apply endpoint_excluded. Qed.

Lemma related_nodes_filter_excludes_any_endpoint_witness :
  let n := node memo 1 1 "private" in
  let c := node memo 3 1 "private" in
  let l := link_between 2 1 memo 3 memo 4 in
  (l ∉ NodeModel.all_links four_memos id pk n)
  ∧ l ∈ objects four_memos link
  ∧ endpoint_of c l = true
  ∧ Q_matches four_memos (related_nodes_filter four_memos n memo) c = true
  ∧ c ∉ qs_exclude four_memos (related_nodes_filter four_memos n memo)
         (objects four_memos memo).
Proof.
  intros n c l.
  assert (l ∈ objects four_memos link) as Hl
    by (vm_compute; right; left).
  assert (endpoint_of c l = true) as Hend by (vm_compute; reflexivity).
  split.
  { vm_compute. intros Hin.
    apply elem_of_cons in Hin as [Heq|Hin]; [discriminate Heq|].
    by apply elem_of_nil in Hin. }
  split; [exact Hl|]. split; [exact Hend|].
  exact (related_nodes_filter_excludes_any_endpoint four_memos n c l
           eq_refl eq_refl Hl Hend).
Defined.

(** ** Visibility of links *)

Section link_visibility.
Context (db : DB).
Implicit Types (l : Obj) (user : nat).

Lemma node_content_types_eq :
  Link.node_content_types = [memo; reference; inkling].
Proof. reflexivity. Qed.

Lemma Link_get_privacy_filter_own user :
  Link.get_privacy_filter db user "own"
  = Ok (Q_or (Q_or (both_ends_in db (PrivacySettingsModel._get_own_objects_filter user) memo)
                   (both_ends_in db (PrivacySettingsModel._get_own_objects_filter user)
                      reference))
             (both_ends_in db (PrivacySettingsModel._get_own_objects_filter user) inkling)).
Proof. reflexivity. Qed.

Lemma Link_get_privacy_filter_friends user :
  Link.get_privacy_filter db user "friends" = Raise FieldError.
Proof. reflexivity. Qed.

Lemma Link_get_privacy_filter_fof user :
  Link.get_privacy_filter db user "fof"
  = Raise (AttributeError "'User' object has no attribute 'userprofile'").
Proof. reflexivity. Qed.

(** The filter of [Link] is built at level [own] only. *)
Lemma Link_get_privacy_filter_inv user level q :
  Link.get_privacy_filter db user level = Ok q →
  ∃ model_filter,
    PrivacySettingsModel.get_privacy_filter db user level = Ok model_filter
    ∧ q = Q_or (Q_or (both_ends_in db model_filter memo)
                     (both_ends_in db model_filter reference))
               (both_ends_in db model_filter inkling)
    ∧ level = "own".
Proof.
  intros Hq.
  destruct (PrivacySettingsModel.get_privacy_filter db user level)
    as [model_filter|e] eqn:Hmf.
  - destruct (get_privacy_filter_Ok db user level model_filter Hmf)
      as [[-> ->]|[-> ->]].
    + rewrite Link_get_privacy_filter_own in Hq. injection Hq as <-.
      by eexists.
    + by rewrite Link_get_privacy_filter_friends in Hq.
  - unfold Link.get_privacy_filter in Hq. rewrite node_content_types_eq in Hq.
    simpl in Hq. rewrite Hmf in Hq. discriminate Hq.
Qed.

Lemma both_ends_in_matches model_filter ct l :
  Q_matches db (both_ends_in db model_filter ct) l = true →
  ∃ lf, link_fields l = Some lf
    ∧ source_content_type lf = ct ∧ target_content_type lf = ct
    ∧ source_object_id lf ∈ pk <$> qs_filter db model_filter (objects db ct)
    ∧ target_object_id lf ∈ pk <$> qs_filter db model_filter (objects db ct).
Proof.
  unfold both_ends_in. cbn [Q_matches forallb lookup_matches].
  unfold on_link_fields. destruct (link_fields l) as [lf|]; [|done].
  rewrite !andb_true_r, !andb_true_iff, !bool_decide_eq_true.
  intros [[? ?] [? ?]]. by exists lf.
Qed.

(** Each end of a link that the bulk filter selects is selected by the
    filter of its own class. *)
Lemma Link_filter_ends_selected user level q l :
  Link.get_privacy_filter db user level = Ok q →
  Q_matches db q l = true →
  ∃ lf model_filter,
    link_fields l = Some lf
    ∧ PrivacySettingsModel.get_privacy_filter db user level = Ok model_filter
    ∧ source_object_id lf
        ∈ pk <$> qs_filter db model_filter (objects db (source_content_type lf))
    ∧ target_object_id lf
        ∈ pk <$> qs_filter db model_filter (objects db (target_content_type lf)).
Proof.
  intros (model_filter & Hmf & -> & _)%Link_get_privacy_filter_inv Hmatch.
  cbn [Q_matches] in Hmatch.
  apply orb_true_iff in Hmatch as [[Hm|Hm]%orb_true_iff|Hm];
    apply both_ends_in_matches in Hm as (lf & Hlf & Hs & Ht & Hsid & Htid);
    exists lf, model_filter; rewrite Hs, Ht; done.
Qed.

(** A link whose source is a memo, a reference or an inkling cannot be
    asked whether it is viewable: the call on the source raises. *)
Lemma Link_is_viewable_by_at_node_source depth l lf o user privacy_level :
  link_fields l = Some lf →
  content_object db (source_content_type lf) (source_object_id lf) = Some o →
  cls o ∈ [memo; reference; inkling] →
  raises (Link.is_viewable_by_at (S depth) db l user privacy_level).
Proof.
  intros Hlf Hobj Hcls. cbn [Link.is_viewable_by_at]. rewrite Hlf, Hobj.
  rewrite !elem_of_cons, elem_of_nil in Hcls.
  destruct Hcls as [->|[->|[->|[]]]]; by eexists.
Qed.

Lemma Link_is_viewable_by_node_source l lf o user privacy_level :
  link_fields l = Some lf →
  content_object db (source_content_type lf) (source_object_id lf) = Some o →
  cls o ∈ [memo; reference; inkling] →
  raises (Link.is_viewable_by db l user privacy_level).
Proof. apply (Link_is_viewable_by_at_node_source 999). Qed.

End link_visibility.

(** C9: a link row that the bulk filter of [Link] selects has a source and
    a target of one and the same content type, which is memo, reference or
    inkling; so neither end is itself a link. *)
Theorem Link_filter_same_kind_ends (db : DB) (user : nat) (level : string)
    (q : Q) (l : Obj) :
  Link.get_privacy_filter db user level = Ok q →
  Q_matches db q l = true →
  ∃ lf, link_fields l = Some lf
    ∧ source_content_type lf = target_content_type lf
    ∧ source_content_type lf ∈ [memo; reference; inkling]
    ∧ source_content_type lf ≠ link ∧ target_content_type lf ≠ link.
Proof.
  intros (model_filter & _ & -> & _)%Link_get_privacy_filter_inv Hmatch.
  cbn [Q_matches] in Hmatch.
  apply orb_true_iff in Hmatch as [[Hm|Hm]%orb_true_iff|Hm];
    apply both_ends_in_matches in Hm as (lf & Hlf & Hs & Ht & _);
    exists lf; rewrite Hs, Ht; repeat split; try done; set_solver.
Qed.

Lemma Link_filter_same_kind_ends_witness :
  ∃ q, Link.get_privacy_filter linked_notes 1 "own" = Ok q
    ∧ Q_matches linked_notes q (link_between 1 1 memo 1 memo 2) = true
    ∧ ∃ lf, link_fields (link_between 1 1 memo 1 memo 2) = Some lf
        ∧ source_content_type lf = target_content_type lf
        ∧ source_content_type lf ∈ [memo; reference; inkling]
        ∧ source_content_type lf ≠ link ∧ target_content_type lf ≠ link.
Proof.
  destruct (Link.get_privacy_filter linked_notes 1 "own") as [q|e] eqn:Hq;
    [|vm_compute in Hq; discriminate Hq].
  assert (Q_matches linked_notes q (link_between 1 1 memo 1 memo 2) = true) as Hm.
  { vm_compute in Hq. injection Hq as <-. vm_compute. reflexivity. }
  exists q. split; [reflexivity|]. split; [exact Hm|].
  exact (Link_filter_same_kind_ends linked_notes 1 "own" q _ Hq Hm).
Defined.

(** C2, where the code departs from it: user 1 owns memo 1 and reference 1
    and the link between them. Both ends are viewable by user 1 at level
    [own], by the single-object check and by the bulk filter of their
    class; yet the bulk filter of [Link] does not select the link, and the
    single-object check of the link raises instead of answering. *)
Theorem Link_between_kinds_not_viewable :
  let l := link_between 2 1 memo 1 reference 1 in
  PrivacySettingsModel.is_viewable_by linked_notes (node memo 1 1 "private") 1 = Ok true
  ∧ PrivacySettingsModel.is_viewable_by linked_notes (node reference 1 1 "private") 1
    = Ok true
  ∧ (q ← get_privacy_filter memo linked_notes 1 "own";
     Ok (qs_filter linked_notes q (objects linked_notes memo)))
    = Ok [node memo 1 1 "private"; node memo 2 1 "private"]
  ∧ (q ← get_privacy_filter reference linked_notes 1 "own";
     Ok (qs_filter linked_notes q (objects linked_notes reference)))
    = Ok [node reference 1 1 "private"]
  ∧ (q ← Link.get_privacy_filter linked_notes 1 "own";
     Ok (Q_matches linked_notes q l)) = Ok false
  ∧ Link.is_viewable_by linked_notes l 1 "own"
    = Raise (TypeError "is_viewable_by() takes 2 positional arguments but 3 were given").
Proof. repeat split; vm_compute; reflexivity. Qed.

(** ** Similarity search *)

Lemma StronglySorted_sublist {A} (R : relation A) (l k : list A) :
  l `sublist_of` k → StronglySorted R k → StronglySorted R l.
Proof.
  induction 1 as [|x l k Hsub IH|x l k Hsub IH]; intros Hk.
  - done.
  - apply StronglySorted_cons in Hk as [Hall Hk].
    apply StronglySorted_cons. split; [|by apply IH].
    apply list.Forall_forall. intros y Hy.
    apply (proj1 (list.Forall_forall _ _) Hall).
    by apply (sublist_subseteq _ _ Hsub).
  - apply StronglySorted_cons in Hk as [_ Hk]. by apply IH.
Qed.


Global Instance distance_le_total : Total distance_le.
Proof.
  intros [x|] [y|]; simpl; auto. apply Qc_le_total.
Qed.

Global Instance distance_le_trans : Transitive distance_le.
Proof.
  intros [x|] [y|] [z|]; simpl; try done. apply Qcle_trans.
Qed.

Global Instance by_position_total position : Total (by_position position).
Proof. intros a b. unfold by_position. lia. Qed.

Section similarity.
Variable CosineDistance : list Qc → list Qc → Qc.
Variable position : Obj → nat.
Context (db : DB).
Implicit Types (queryset l : list Obj) (q : Q) (o : Obj) (c : ContentType).

Abbreviation distance := (distance CosineDistance).
Abbreviation by_distance := (by_distance CosineDistance).
Abbreviation nearest := (nearest CosineDistance position db).
Abbreviation below := (below CosineDistance).
Abbreviation unlimited := (unlimited CosineDistance position db).
Abbreviation get_similar_objects := (get_similar_objects CosineDistance position db).

Global Instance by_distance_total e : Total (by_distance e).
Proof. intros a b. apply distance_le_total. Qed.

Global Instance by_distance_trans e : Transitive (by_distance e).
Proof. intros a b c. apply distance_le_trans. Qed.

Lemma qs_filter_sublist q queryset : qs_filter db q queryset `sublist_of` queryset.
Proof. apply sublist_filter. Qed.

Lemma qs_exclude_sublist q queryset : qs_exclude db q queryset `sublist_of` queryset.
Proof. unfold qs_exclude. destruct (Q__bool__ q); [apply sublist_filter|done]. Qed.

Lemma nearest_sorted c e threshold :
  StronglySorted (by_distance e) (nearest c e threshold).
Proof.
  apply Sorted_StronglySorted; [apply _|]. apply Sorted_merge_sort, _.
Qed.

Lemma elem_of_nearest c e threshold o :
  o ∈ nearest c e threshold ↔ o ∈ objects db c ∧ below e threshold o.
Proof.
  unfold nearest, order_by_distance, database_order.
  rewrite !merge_sort_Permutation, list_elem_of_filter.
  unfold below, distance__lt. destruct (distance e o) as [d|].
  - split.
    + intros [Hlt%bool_decide_unpack Hin]. split; [done|]. by exists d.
    + intros [Hin (d' & [= <-] & Hlt)]. split; [|done]. by apply bool_decide_pack.
  - split; [by intros [[] _]|]. by intros [_ (d' & [=] & _)].
Qed.


Lemma unlimited_sublist c e threshold pf exclude_filter :
  unlimited c e threshold pf exclude_filter `sublist_of` nearest c e threshold.
Proof.
  unfold unlimited. destruct exclude_filter;
    [etrans; [apply qs_exclude_sublist|]|]; apply qs_filter_sublist.
Qed.

Lemma elem_of_unlimited c e threshold pf exclude_filter o :
  o ∈ unlimited c e threshold pf exclude_filter
  ↔ o ∈ objects db c
    ∧ below e threshold o
    ∧ Q_matches db pf o = true
    ∧ not_excluded db exclude_filter o = true.
Proof.
  unfold unlimited, not_excluded.
  assert (∀ o, o ∈ qs_filter db pf (nearest c e threshold)
               ↔ o ∈ objects db c ∧ below e threshold o
                 ∧ Q_matches db pf o = true) as Hfilter.
  { intros o'. unfold qs_filter.
    rewrite list_elem_of_filter, Is_true_true, elem_of_nearest. tauto. }
  destruct exclude_filter as [q|].
  - unfold qs_exclude. destruct (Q__bool__ q); simpl.
    + rewrite list_elem_of_filter, Is_true_true, Hfilter. tauto.
    + rewrite Hfilter. tauto.
  - rewrite Hfilter. tauto.
Qed.

Lemma slice_to_inv n queryset l :
  slice_to n queryset = Ok l →
  (0 ≤ n)%Z ∧ l = take (Z.to_nat n) queryset.
Proof.
  unfold slice_to. case_bool_decide; [done|]. intros [= <-]. split; [lia|done].
Qed.

(** The result of the search once the limit is applied. *)
Lemma get_similar_objects_eq c e user exclude_filter limit threshold level pf :
  search_privacy_filter c db user level = Ok pf →
  Q_resolves c pf = true →
  (∀ q, exclude_filter = Some q → Q_resolves c q = true) →
  get_similar_objects c e user exclude_filter limit threshold level
  = match limit with
    | Some n =>
        if bool_decide (n ≠ 0%Z)
        then slice_to n (unlimited c e threshold pf exclude_filter)
        else Ok (unlimited c e threshold pf exclude_filter)
    | None => Ok (unlimited c e threshold pf exclude_filter)
    end.
Proof.
  unfold search_privacy_filter, get_similar_objects, unlimited.
  intros -> Hpf Hex. cbn [mbind result_bind].
  unfold QuerySet_filter. rewrite Hpf. cbn [mbind result_bind].
  destruct exclude_filter as [q|]; [|done].
  unfold QuerySet_exclude. by rewrite (Hex q eq_refl).
Qed.

(** When the search returns, its filters were built and resolved. *)
Lemma get_similar_objects_Ok c e user exclude_filter limit threshold level l :
  get_similar_objects c e user exclude_filter limit threshold level = Ok l →
  ∃ pf, search_privacy_filter c db user level = Ok pf
    ∧ Q_resolves c pf = true
    ∧ (∀ q, exclude_filter = Some q → Q_resolves c q = true).
Proof.
  unfold search_privacy_filter, get_similar_objects.
  destruct (if issubclass_PrivacySettingsModel c then _ else _) as [pf|err];
    [|done].
  cbn [mbind result_bind]. unfold QuerySet_filter.
  destruct (Q_resolves c pf) eqn:Hpf; [|done].
  cbn [mbind result_bind]. intros Hl. exists pf. split; [done|]. split; [done|].
  intros q ->. unfold QuerySet_exclude in Hl.
  by destruct (Q_resolves c q).
Qed.

Lemma get_similar_objects_part_of_unlimited c e user exclude_filter limit
    threshold level l :
  get_similar_objects c e user exclude_filter limit threshold level = Ok l →
  ∃ pf, search_privacy_filter c db user level = Ok pf
    ∧ l `sublist_of` unlimited c e threshold pf exclude_filter
    ∧ ∀ n, limit = Some n → n ≠ 0%Z → (0 < n)%Z ∧ l = take (Z.to_nat n)
        (unlimited c e threshold pf exclude_filter).
Proof.
  intros Hl.
  destruct (get_similar_objects_Ok _ _ _ _ _ _ _ _ Hl) as (pf & Hpf & Hres & Hex).
  exists pf. split; [done|].
  rewrite (get_similar_objects_eq _ _ _ _ _ _ _ _ Hpf Hres Hex) in Hl.
  destruct limit as [n|]; [case_bool_decide as Hn|].
  - apply slice_to_inv in Hl as [Hpos ->]. split; [apply sublist_take|].
    intros ? [= <-] _. split; [lia|done].
  - injection Hl as <-. split; [done|]. by intros ? [= <-] ?.
  - injection Hl as <-. split; [done|]. by intros ? [=].
Qed.

(** At level [own], and for a class without privacy levels at any level,
    the privacy filter of the search is built and the class resolves it. *)
Lemma search_privacy_filter_own c user level :
  (issubclass_PrivacySettingsModel c = true → level = "own") →
  ∃ pf, search_privacy_filter c db user level = Ok pf ∧ Q_resolves c pf = true.
Proof.
  intros Hlevel. unfold search_privacy_filter.
  destruct (issubclass_PrivacySettingsModel c) eqn:Hc; [|by eexists].
  rewrite (Hlevel eq_refl). unfold get_privacy_filter. case_bool_decide as Hlink.
  - subst c. rewrite Link_get_privacy_filter_own. by eexists.
  - eexists. split; [reflexivity|]. reflexivity.
Qed.


End similarity.




(** * Further properties of the models *)

(** ** The friendship operations *)

Lemma symmetric_friends_same_friends (db db' : DB) :
  friends db' = friends db → symmetric_friends db → symmetric_friends db'.
Proof. unfold symmetric_friends. by intros ->. Qed.

Lemma run_op_symmetric (db db' : DB) (op : FriendOp) :
  symmetric_friends db → run_op db op = Ok db' → symmetric_friends db'.
Proof.
  intros Hsym. destruct op as [a b|a b|a b|a b]; simpl.
  - unfold UserProfile.send_friend_request.
    destruct (_ && _); intros [= <-]; by apply (symmetric_friends_same_friends db).
  - by apply accept_friend_request_symmetric.
  - intros [= <-]. by apply (symmetric_friends_same_friends db).
  - intros [= <-]. by apply friends_remove_symmetric.
Qed.

Lemma run_op_returns (db : DB) (op : FriendOp) : ∃ db', run_op db op = Ok db'.
Proof.
  destruct op as [a b|a b|a b|a b]; simpl; [| |by eexists..].
  - unfold UserProfile.send_friend_request. destruct (_ && _); by eexists.
  - unfold UserProfile.accept_friend_request.
    destruct (UserProfile.has_sent_request_to _ _ _); by eexists.
Qed.

(** X1: friendship stays mutual: whatever sequence of requests, acceptances,
    rejections and removals runs on a database whose friendship relation is
    symmetric, the relation is symmetric afterwards. *)
Theorem run_ops_keep_symmetry (db : DB) (ops : list FriendOp) :
  symmetric_friends db → symmetric_friends (run_ops db ops).
Proof.
  revert db. induction ops as [|op ops IH]; intros db Hsym; [done|].
  simpl. apply IH.
  destruct (run_op_returns db op) as [db' Hop]. rewrite Hop. simpl.
  by apply (run_op_symmetric db db' op).
Qed.

Lemma run_ops_keep_symmetry_witness :
  symmetric_friends
    (run_ops empty_db [SendRequest 1 2; AcceptRequest 2 1; SendRequest 3 1;
                       RemoveFriend 2 1; RejectRequest 1 3]).
Proof.
  apply run_ops_keep_symmetry.
  unfold symmetric_friends. apply (bool_decide_unpack _). vm_compute. exact I.
Defined.

(** X2: [remove_friend] ends the friendship in both directions and touches
    nothing else: no other pair of friends and no pending request. *)
Theorem remove_friend_both_directions (db : DB) (a b : nat) :
  ∃ db', UserProfile.remove_friend db a b = Ok db'
    ∧ UserProfile.is_friends_with db' a b = false
    ∧ UserProfile.is_friends_with db' b a = false
    ∧ friend_requests db' = friend_requests db
    ∧ ∀ x y, (x, y) ≠ (a, b) → (x, y) ≠ (b, a) →
        UserProfile.is_friends_with db' x y = UserProfile.is_friends_with db x y.
Proof.
  eexists. split; [reflexivity|].
  split; [|split; [|split; [reflexivity|]]].
  - apply is_friends_with_false. simpl.
    rewrite elem_of_difference, elem_of_union, !elem_of_singleton.
    intros [_ Hnot]. apply Hnot. by left.
  - apply is_friends_with_false. simpl.
    rewrite elem_of_difference, elem_of_union, !elem_of_singleton.
    intros [_ Hnot]. apply Hnot. by right.
  - intros x y Hab Hba. unfold UserProfile.is_friends_with.
    apply bool_decide_ext. rewrite !elem_of_friends_all. simpl.
    rewrite elem_of_difference, elem_of_union, !elem_of_singleton.
    split; [by intros [? _]|]. intros Hin. split; [done|]. by intros [?|?].
Qed.

Lemma remove_friend_both_directions_witness :
  let db := befriend (befriend empty_db 1 2) 2 3 in
  ∃ db', UserProfile.remove_friend db 1 2 = Ok db'
    ∧ UserProfile.is_friends_with db' 1 2 = false
    ∧ UserProfile.is_friends_with db' 2 1 = false
    ∧ UserProfile.is_friends_with db' 3 2 = true.
Proof.
  intros db.
  destruct (remove_friend_both_directions db 1 2) as (db' & Hrun & H12 & H21 & _ & Hrest).
  exists db'. split; [exact Hrun|]. split; [exact H12|]. split; [exact H21|].
  rewrite (Hrest 3 2); [| intros [=] | intros [=]].
  vm_compute. reflexivity.
Defined.

(** X3: [reject_friend_request] deletes the request from the sender, leaves
    every friendship and every other request as it was, and changes nothing
    at all when no such request is pending. *)
Theorem reject_friend_request_deletes (db : DB) (self sender : nat) :
  ∃ db', UserProfile.reject_friend_request db self sender = Ok db'
    ∧ UserProfile.has_sent_request_to db' sender self = false
    ∧ friends db' = friends db
    ∧ (∀ x y, (x, y) ≠ (sender, self) →
         UserProfile.has_sent_request_to db' x y = UserProfile.has_sent_request_to db x y)
    ∧ (UserProfile.has_sent_request_to db sender self = false → db' = db).
Proof.
  eexists. split; [reflexivity|].
  split; [|split; [reflexivity|split]].
  - apply bool_decide_eq_false. simpl.
    rewrite elem_of_difference, elem_of_singleton. by intros [_ ?].
  - intros x y Hne. unfold UserProfile.has_sent_request_to.
    apply bool_decide_ext. simpl.
    rewrite elem_of_difference, elem_of_singleton. by split; [intros [? _]|].
  - intros Hnone%bool_decide_eq_false. destruct db as [os fr rq]. simpl in *.
    unfold UserProfile.FriendRequest_delete. simpl. f_equal.
    apply difference_disjoint_L. by apply disjoint_singleton_r.
Qed.

Lemma reject_friend_request_deletes_witness :
  let db := after empty_db (UserProfile.send_friend_request empty_db 1 2) in
  UserProfile.has_sent_request_to db 1 2 = true
  ∧ ∃ db', UserProfile.reject_friend_request db 2 1 = Ok db'
      ∧ UserProfile.has_sent_request_to db' 1 2 = false
      ∧ UserProfile.reject_friend_request db' 2 1 = Ok db'.
Proof.
  intros db. split; [vm_compute; reflexivity|].
  destruct (reject_friend_request_deletes db 2 1) as (db' & Hrun & Hgone & _ & _ & _).
  exists db'. split; [exact Hrun|]. split; [exact Hgone|].
  destruct (reject_friend_request_deletes db' 2 1) as (db'' & Hrun' & _ & _ & _ & Hsame).
  rewrite Hrun'. f_equal. by apply Hsame.
Defined.

(** X4: sending the same request a second time changes nothing. *)
Theorem send_friend_request_idempotent (db : DB) (a b : nat) :
  let db1 := after db (UserProfile.send_friend_request db a b) in
  UserProfile.send_friend_request db1 a b = Ok db1.
Proof.
  unfold UserProfile.send_friend_request.
  destruct (UserProfile.has_sent_request_to db a b) eqn:Hsent; simpl.
  - by rewrite Hsent.
  - destruct (UserProfile.is_friends_with db a b) eqn:Hfr; simpl.
    + by rewrite Hsent, Hfr.
    + assert (UserProfile.has_sent_request_to
                (UserProfile.FriendRequest_create db a b) a b = true) as ->; [|done].
      apply has_sent_request_to_true. simpl.
      rewrite elem_of_union, elem_of_singleton. by right.
Qed.

(** X5: a friendship that was not there before an operation and is there after
    it comes from the acceptance of a pending request between the two
    users; sending, rejecting and removing never create one. *)
Theorem friendship_only_by_accept (db db' : DB) (op : FriendOp) (a b : nat) :
  run_op db op = Ok db' →
  UserProfile.is_friends_with db a b = false →
  UserProfile.is_friends_with db' a b = true →
  ∃ self sender,
    op = AcceptRequest self sender
    ∧ UserProfile.has_sent_request_to db sender self = true
    ∧ ((a, b) = (self, sender) ∨ (a, b) = (sender, self)).
Proof.
  intros Hop Hbefore%is_friends_with_false Hafter%is_friends_with_true.
  destruct op as [x y|x y|x y|x y]; simpl in Hop.
  - unfold UserProfile.send_friend_request in Hop.
    destruct (_ && _); injection Hop as <-; done.
  - unfold UserProfile.accept_friend_request in Hop.
    destruct (UserProfile.has_sent_request_to db y x) eqn:Hsent;
      injection Hop as <-; [|done].
    exists x, y. split; [done|]. split; [done|]. simpl in Hafter.
    rewrite !elem_of_union, !elem_of_singleton in Hafter.
    destruct Hafter as [[?|[?|?]]|[?|?]]; auto; done.
  - injection Hop as <-. done.
  - injection Hop as <-. simpl in Hafter.
    apply elem_of_difference in Hafter as [? _]. done.
Qed.

Lemma friendship_only_by_accept_witness :
  let db := after empty_db (UserProfile.send_friend_request empty_db 1 2) in
  ∃ self sender,
    AcceptRequest 2 1 = AcceptRequest self sender
    ∧ UserProfile.has_sent_request_to db sender self = true
    ∧ ((1, 2) = (self, sender) ∨ (1, 2) = (sender, self)).
Proof.
  intros db.
  apply (friendship_only_by_accept db (after db (run_op db (AcceptRequest 2 1)))
           (AcceptRequest 2 1) 1 2); vm_compute; reflexivity.
Defined.

(** X6: when two users have each asked the other and one of the two requests is
    accepted, they are friends and the request in the other direction stays
    pending. *)
Theorem accept_leaves_reverse_request (db : DB) (a b : nat) :
  a ≠ b →
  UserProfile.has_sent_request_to db a b = true →
  UserProfile.has_sent_request_to db b a = true →
  ∃ db', UserProfile.accept_friend_request db b a = Ok db'
    ∧ UserProfile.is_friends_with db' a b = true
    ∧ UserProfile.is_friends_with db' b a = true
    ∧ UserProfile.has_sent_request_to db' b a = true.
Proof.
  intros Hne Hab Hba. unfold UserProfile.accept_friend_request. rewrite Hab.
  eexists. split; [reflexivity|]. repeat split.
  - apply is_friends_with_true. simpl.
    rewrite !elem_of_union, !elem_of_singleton. auto.
  - apply is_friends_with_true. simpl.
    rewrite !elem_of_union, !elem_of_singleton. auto.
  - apply has_sent_request_to_true in Hba. apply has_sent_request_to_true. simpl.
    rewrite elem_of_difference, elem_of_singleton. split; [done|].
    intros [= -> _]. done.
Qed.

Lemma accept_leaves_reverse_request_witness :
  let db := run_ops empty_db [SendRequest 1 2; SendRequest 2 1] in
  ∃ db', UserProfile.accept_friend_request db 2 1 = Ok db'
    ∧ UserProfile.is_friends_with db' 1 2 = true
    ∧ UserProfile.is_friends_with db' 2 1 = true
    ∧ UserProfile.has_sent_request_to db' 2 1 = true.
Proof.
  intros db. apply accept_leaves_reverse_request.
  - intros [=].
  - vm_compute. reflexivity.
  - vm_compute. reflexivity.
Defined.

(** ** Who sees what *)







(** X11: above level [own] there is no selection, on any database and for
    any viewer and row: at level [friends] the filter is built but applying
    it raises [FieldError], at level [fof] building it raises
    [AttributeError]; the bulk filter of [Link], which applies the filter of
    the node classes while it is built, raises likewise at both levels. *)
Theorem levels_above_own_raise (db : DB) (viewer : nat) (o : Obj) :
  selected_at db viewer "friends" o = Raise FieldError
  ∧ selected_at db viewer "fof" o
    = Raise (AttributeError "'User' object has no attribute 'userprofile'")
  ∧ Link.get_privacy_filter db viewer "friends" = Raise FieldError
  ∧ Link.get_privacy_filter db viewer "fof"
    = Raise (AttributeError "'User' object has no attribute 'userprofile'").
Proof.
  split; [apply selected_at_friends|]. split; [apply selected_at_fof|].
  split; [apply Link_get_privacy_filter_friends|apply Link_get_privacy_filter_fof].
Qed.


(** ** Links *)

Lemma is_viewable_by_at_raises (depth : nat) (db : DB) (l : Obj) (user : nat)
    (privacy_level : string) :
  raises (Link.is_viewable_by_at depth db l user privacy_level).
Proof.
  revert l. induction depth as [|depth IH]; intros l; [by eexists|].
  cbn [Link.is_viewable_by_at].
  destruct (link_fields l) as [lf|]; [|by eexists].
  destruct (content_object db (source_content_type lf) (source_object_id lf))
    as [o|]; [|by eexists].
  destruct (cls o); try by eexists.
  destruct (IH o) as [e ->]. by eexists.
Qed.

(** X12: [Link.is_viewable_by] never answers: on every database, for every link,
    user and level the call raises. A source that is a memo, a reference or
    an inkling is called with one argument too many, a tag has no such
    method, an unresolved source is [None], and a chain of links either ends
    in one of these or exhausts the call stack. *)
Theorem Link_is_viewable_by_always_raises (db : DB) (l : Obj) (user : nat)
    (privacy_level : string) :
  raises (Link.is_viewable_by db l user privacy_level).
Proof. apply is_viewable_by_at_raises. Qed.

Lemma both_ends_in_matches_iff (db : DB) (model_filter : Q) (ct : ContentType)
    (l : Obj) :
  Q_matches db (both_ends_in db model_filter ct) l = true
  ↔ ∃ lf, link_fields l = Some lf
      ∧ source_content_type lf = ct ∧ target_content_type lf = ct
      ∧ source_object_id lf ∈ viewable_pks db model_filter ct
      ∧ target_object_id lf ∈ viewable_pks db model_filter ct.
Proof.
  split; [apply both_ends_in_matches|].
  intros (lf & Hlf & Hs & Ht & Hsid & Htid).
  unfold both_ends_in. cbn [Q_matches forallb lookup_matches].
  unfold on_link_fields. rewrite Hlf.
  rewrite !andb_true_r, !andb_true_iff, !bool_decide_eq_true. done.
Qed.

(** X13: what the bulk filter of [Link] selects when it is built, exactly:
    the links whose two ends are of the same class, that class being memo,
    reference or inkling, and are both among the rows of that class that the
    filter of the node classes selects at the level. The filter is built at
    level [own] only. *)
Theorem Link_filter_selects_exactly (db : DB) (user : nat) (level : string)
    (q : Q) (l : Obj) :
  Link.get_privacy_filter db user level = Ok q →
  level = "own"
  ∧ ∃ model_filter,
      PrivacySettingsModel.get_privacy_filter db user level = Ok model_filter
      ∧ (Q_matches db q l = true
         ↔ ∃ lf, link_fields l = Some lf
             ∧ source_content_type lf = target_content_type lf
             ∧ source_content_type lf ∈ [memo; reference; inkling]
             ∧ source_object_id lf
                 ∈ viewable_pks db model_filter (source_content_type lf)
             ∧ target_object_id lf
                 ∈ viewable_pks db model_filter (target_content_type lf)).
Proof.
  intros (model_filter & Hmf & -> & Hlevel)%Link_get_privacy_filter_inv.
  split; [done|]. exists model_filter. split; [done|].
  cbn [Q_matches]. rewrite !orb_true_iff, !both_ends_in_matches_iff. split.
  - intros [[Hm|Hm]|Hm]; destruct Hm as (lf & Hlf & Hs & Ht & Hsid & Htid);
      exists lf; rewrite Hs, Ht; repeat split; try done;
      rewrite !elem_of_cons; auto.
  - intros (lf & Hlf & Hst & Hkind & Hsid & Htid).
    rewrite <- Hst in Htid.
    rewrite !elem_of_cons, elem_of_nil in Hkind.
    destruct Hkind as [Hk|[Hk|[Hk|[]]]]; rewrite Hk in Hsid, Htid;
      [left; left|left; right|right]; exists lf; rewrite <- Hst, Hk; done.
Qed.

Lemma Link_filter_selects_exactly_witness :
  let l := link_between 1 1 memo 1 memo 2 in
  ∃ q, Link.get_privacy_filter linked_notes 1 "own" = Ok q
    ∧ Q_matches linked_notes q l = true.
Proof.
  intros l.
  pose (q := Q_or (Q_or (both_ends_in linked_notes
                           (PrivacySettingsModel._get_own_objects_filter 1) memo)
                        (both_ends_in linked_notes
                           (PrivacySettingsModel._get_own_objects_filter 1) reference))
                  (both_ends_in linked_notes
                     (PrivacySettingsModel._get_own_objects_filter 1) inkling)).
  destruct (Link_filter_selects_exactly linked_notes 1 "own" q l eq_refl)
    as (_ & model_filter & Hmf & Hiff).
  exists q. split; [reflexivity|]. apply Hiff.
  injection Hmf as <-.
  eexists. split; [reflexivity|]. split; [reflexivity|].
  split; [left|]. split; vm_compute; [left|right; left].
Defined.

(** ** The link graph around a node *)

Section link_graph.
Context (db : DB).
Implicit Types (n c l o : Obj) (other : ContentType).

Lemma content_object_Some ct id o :
  content_object db ct id = Some o →
  cls o = ct ∧ pk o = id ∧ o ∈ all_objects db.
Proof.
  unfold content_object. intros Hhead.
  assert (o ∈ filter (λ o, pk o = id) (objects db ct)) as Hin.
  { destruct (filter _ _) as [|x xs]; [done|]. injection Hhead as ->. left. }
  apply list_elem_of_filter in Hin as [Hpk Hin].
  unfold objects in Hin. apply list_elem_of_filter in Hin as [Hcls Hin]. done.
Qed.

Lemma content_object_is_Some ct id o :
  o ∈ all_objects db → cls o = ct → pk o = id →
  is_Some (content_object db ct id).
Proof.
  intros Hin Hcls Hpk. unfold content_object.
  assert (o ∈ filter (λ o, pk o = id) (objects db ct)) as Hf.
  { apply list_elem_of_filter. split; [done|].
    unfold objects. by apply list_elem_of_filter. }
  destruct (filter _ _) as [|x xs]; [by apply elem_of_nil in Hf|by eexists].
Qed.

Lemma endpoint_of_true c l :
  endpoint_of c l = true
  ↔ ∃ lf, link_fields l = Some lf
      ∧ ((source_content_type lf = cls c ∧ source_object_id lf = pk c)
         ∨ (target_content_type lf = cls c ∧ target_object_id lf = pk c)).
Proof.
  unfold endpoint_of, on_link_fields. destruct (link_fields l) as [lf|].
  - rewrite orb_true_iff, !andb_true_iff, !bool_decide_eq_true. split.
    + intros H. by exists lf.
    + by intros (? & [= <-] & H).
  - split; [done|]. by intros (? & [=] & _).
Qed.

Lemma all_links_iff name_order position n l :
  l ∈ NodeModel.all_links db name_order position n
  ↔ l ∈ objects db link ∧ endpoint_of n l = true.
Proof.
  rewrite elem_of_all_links. unfold qs_filter.
  rewrite list_elem_of_filter, Is_true_true.
  cbn [Q__or__ Q__bool__ negb Q_matches forallb lookup_matches].
  unfold endpoint_of, on_link_fields. destruct (link_fields l) as [lf|]; simpl.
  - rewrite !andb_true_r. tauto.
  - split; [by intros [? ?]|by intros [? ?]].
Qed.

Lemma Q__or__matches (a b : Q) o :
  Q__bool__ a = true → Q__bool__ b = true →
  Q_matches db (Q__or__ a b) o = Q_matches db a o || Q_matches db b o.
Proof. intros Ha Hb. unfold Q__or__. by rewrite Ha, Hb. Qed.

Lemma Q__or__matches_r (a b : Q) o :
  Q__bool__ b = true → Q_matches db b o = true →
  Q_matches db (Q__or__ a b) o = true.
Proof.
  intros Hb Hm. unfold Q__or__. rewrite Hb.
  destruct (Q__bool__ a); simpl; [|done]. by rewrite Hm, orb_true_r.
Qed.

Lemma NodeModel_filter_nonempty n other :
  Q__bool__ (NodeModel.related_nodes_filter n other) = true.
Proof.
  unfold NodeModel.related_nodes_filter.
  change (Q__or__ (Q__or__ (Q_ []) (Q_ [source_links__source_content_type other]))
                  (Q_ [target_links__target_content_type other]))
    with (in_some_link other).
  repeat case_bool_decide; auto using Q__or__nonempty_l.
Qed.

Lemma NodeModel_filter_matches n other c :
  Q_matches db (NodeModel.related_nodes_filter n other) c
  = Q_matches db (in_some_link other) c
    || (bool_decide (other = link) && endpoint_of n c)
    || (bool_decide (cls n = other) && bool_decide (pk c = pk n)).
Proof.
  unfold NodeModel.related_nodes_filter.
  change (Q__or__ (Q__or__ (Q_ []) (Q_ [source_links__source_content_type other]))
                  (Q_ [target_links__target_content_type other]))
    with (in_some_link other).
  assert (Q__bool__ (in_some_link other) = true) as Hne by done.
  assert (∀ ct id,
    Q_matches db (Q_ [source_content_type_exact ct; source_object_id_exact id]) c
    || Q_matches db (Q_ [target_content_type_exact ct; target_object_id_exact id]) c
    = on_link_fields c (λ lf,
        (bool_decide (source_content_type lf = ct) && bool_decide (source_object_id lf = id))
        || (bool_decide (target_content_type lf = ct)
            && bool_decide (target_object_id lf = id)))) as Hends.
  { intros ct id. cbn [Q_matches forallb lookup_matches]. unfold on_link_fields.
    destruct (link_fields c); [|done]. by rewrite !andb_true_r. }
  assert (Q_matches db (Q_ [pk_exact (pk n)]) c = bool_decide (pk c = pk n)) as Hpk.
  { simpl. by rewrite andb_true_r. }
  unfold endpoint_of. rewrite <- Hends.
  destruct (bool_decide (other = link)); destruct (bool_decide (cls n = other));
    rewrite ?Q__or__matches by auto using Q__or__nonempty_l;
    rewrite ?Hpk; cbn [andb]; rewrite ?orb_false_r, ?orb_assoc; done.
Qed.

Lemma Link_filter_matches n other c lf :
  link_fields n = Some lf →
  Q_matches db (Link.related_nodes_filter db n other) c
  = Q_matches db (NodeModel.related_nodes_filter n other) c
    || (Link.isinstance_content_object db (source_content_type lf)
          (source_object_id lf) other
        && bool_decide (pk c = source_object_id lf))
    || (Link.isinstance_content_object db (target_content_type lf)
          (target_object_id lf) other
        && bool_decide (pk c = target_object_id lf)).
Proof.
  intros Hlf. unfold Link.related_nodes_filter. rewrite Hlf.
  pose proof (NodeModel_filter_nonempty n other) as Hne.
  destruct (Link.isinstance_content_object db (source_content_type lf) _ _);
    destruct (Link.isinstance_content_object db (target_content_type lf) _ _);
    rewrite ?Q__or__matches by auto using Q__or__nonempty_l;
    cbn [andb Q_matches forallb lookup_matches];
    rewrite ?andb_true_r, ?orb_false_r; done.
Qed.

Lemma in_some_link_matches_iff c :
  Q_matches db (in_some_link (cls c)) c = true
  ↔ ∃ l, l ∈ objects db link ∧ endpoint_of c l = true.
Proof.
  split; [|intros (l & Hl & Hend); by apply (endpoint_in_some_link db c l)].
  cbn [Q_matches in_some_link forallb lookup_matches].
  rewrite !andb_true_r, orb_true_iff, !existsb_exists.
  intros [(l & Hin & _)|(l & Hin & _)]; exists l;
    apply list_elem_of_In, list_elem_of_filter in Hin as [Hends Hl];
    (split; [done|]); apply Is_true_true in Hends;
    unfold endpoint_of, on_link_fields in *;
    destruct (link_fields l); try done; rewrite Hends; by rewrite ?orb_true_r.
Qed.

End link_graph.

Section related_more.
Context (db : DB).
Implicit Types (n c l : Obj) (other : ContentType).

Lemma related_nodes_filter_nonempty n other :
  Q__bool__ (related_nodes_filter db n other) = true.
Proof.
  pose proof (NodeModel_filter_nonempty n other) as Hne.
  unfold related_nodes_filter. case_bool_decide; [|done].
  unfold Link.related_nodes_filter. destruct (link_fields n); [|done].
  repeat match goal with
         | |- context [if ?b then _ else _] => destruct b
         end; auto using Q__or__nonempty_l.
Qed.

Lemma related_nodes_filter_of_node n other c :
  Q_matches db (NodeModel.related_nodes_filter n other) c = true →
  Q_matches db (related_nodes_filter db n other) c = true.
Proof.
  intros Hnode. unfold related_nodes_filter. case_bool_decide; [|done].
  destruct (link_fields n) as [lf|] eqn:Hlf.
  - by rewrite (Link_filter_matches db n other c lf), Hnode.
  - unfold Link.related_nodes_filter. by rewrite Hlf.
Qed.

Lemma qs_exclude_drops q c table :
  Q__bool__ q = true → Q_matches db q c = true → c ∉ qs_exclude db q table.
Proof.
  intros Hne Hm. unfold qs_exclude. rewrite Hne.
  intros [Hneg _]%list_elem_of_filter. by rewrite Hm in Hneg.
Qed.

Lemma qs_exclude_keeps q c table :
  Q_matches db q c = false → c ∈ table → c ∈ qs_exclude db q table.
Proof.
  intros Hm Hin. unfold qs_exclude. destruct (Q__bool__ q); [|done].
  apply list_elem_of_filter. split; [|done]. by rewrite Hm.
Qed.

End related_more.

(** X14: a node is excluded from its own suggestions: the exclusion filter built
    for [n] and its own class matches every row of that class with the
    primary key of [n]. *)
Theorem related_nodes_filter_excludes_self (db : DB) (n c : Obj) :
  issubclass_NodeModel (cls n) = true →
  cls c = cls n → pk c = pk n →
  Q_matches db (related_nodes_filter db n (cls c)) c = true
  ∧ c ∉ qs_exclude db (related_nodes_filter db n (cls c)) (objects db (cls c)).
Proof.
  intros _ Hcls Hpk.
  assert (Q_matches db (related_nodes_filter db n (cls c)) c = true) as Hm.
  { apply related_nodes_filter_of_node.
    rewrite NodeModel_filter_matches, Hcls, Hpk.
    rewrite (bool_decide_true (cls n = cls n)), (bool_decide_true (pk n = pk n))
      by done.
    by rewrite orb_true_r. }
  split; [done|]. by apply qs_exclude_drops; [apply related_nodes_filter_nonempty|].
Qed.

Lemma related_nodes_filter_excludes_self_witness :
  let n := node memo 3 1 "private" in
  Q_matches four_memos (related_nodes_filter four_memos n memo) n = true
  ∧ n ∉ qs_exclude four_memos (related_nodes_filter four_memos n memo)
         (objects four_memos memo).
Proof.
  intros n. by apply (related_nodes_filter_excludes_self four_memos n n).
Defined.

(** X15: when links are the candidates, a link that has [n] as its source or its
    target is excluded, whether or not it is stored and whatever else it
    joins. *)
Theorem related_nodes_filter_excludes_own_links (db : DB) (n l : Obj) :
  issubclass_NodeModel (cls n) = true →
  cls l = link →
  endpoint_of n l = true →
  Q_matches db (related_nodes_filter db n link) l = true
  ∧ l ∉ qs_exclude db (related_nodes_filter db n link) (objects db link).
Proof.
  intros _ Hcls Hend.
  assert (Q_matches db (related_nodes_filter db n link) l = true) as Hm.
  { apply related_nodes_filter_of_node.
    rewrite NodeModel_filter_matches, Hend.
    rewrite (bool_decide_true (link = link)) by done.
    by rewrite orb_true_r. }
  split; [done|]. by apply qs_exclude_drops; [apply related_nodes_filter_nonempty|].
Qed.

Lemma related_nodes_filter_excludes_own_links_witness :
  let n := node memo 1 1 "private" in
  let l := link_between 9 1 memo 1 reference 7 in
  Q_matches linked_notes (related_nodes_filter linked_notes n link) l = true
  ∧ l ∉ qs_exclude linked_notes (related_nodes_filter linked_notes n link)
         (objects linked_notes link).
Proof.
  intros n l. by apply (related_nodes_filter_excludes_own_links linked_notes n l).
Defined.

(** X16: what the exclusion filter lets through: a stored candidate that is an
    end of no stored link, is not an end of [n] (when [n] is a link), does
    not have [n] as an end (when the candidate is a link) and is not [n]
    itself is not matched, and [exclude] keeps it. *)
Theorem related_nodes_filter_admits_unrelated (db : DB) (n c : Obj) :
  issubclass_NodeModel (cls n) = true →
  issubclass_NodeModel (cls c) = true →
  c ∈ objects db (cls c) →
  (∀ l, l ∈ objects db link → endpoint_of c l = false) →
  endpoint_of c n = false →
  endpoint_of n c = false →
  ¬ (cls c = cls n ∧ pk c = pk n) →
  Q_matches db (related_nodes_filter db n (cls c)) c = false
  ∧ c ∈ qs_exclude db (related_nodes_filter db n (cls c)) (objects db (cls c)).
Proof.
  intros _ _ Hstored Hnolink Hcn Hnc Hself.
  assert (Q_matches db (NodeModel.related_nodes_filter n (cls c)) c = false) as Hnode.
  { rewrite NodeModel_filter_matches, Hnc, andb_false_r, orb_false_r.
    apply orb_false_iff. split.
    - apply not_true_is_false. intros (l & Hl & Hend)%in_some_link_matches_iff.
      by rewrite (Hnolink l Hl) in Hend.
    - apply not_true_is_false.
      intros [Hcls%bool_decide_eq_true Hpk%bool_decide_eq_true]%andb_true_iff.
      by apply Hself. }
  assert (Q_matches db (related_nodes_filter db n (cls c)) c = false) as Hm.
  { unfold related_nodes_filter. case_bool_decide; [|done].
    destruct (link_fields n) as [lf|] eqn:Hlf;
      [|unfold Link.related_nodes_filter; by rewrite Hlf].
    rewrite (Link_filter_matches db n (cls c) c lf Hlf), Hnode. simpl.
    unfold endpoint_of, on_link_fields in Hcn. rewrite Hlf in Hcn.
    apply orb_false_iff in Hcn as [Hsrc Htgt].
    apply orb_false_iff. split; apply not_true_is_false;
      intros [Hinst Hpk%bool_decide_eq_true]%andb_true_iff;
      unfold Link.isinstance_content_object in Hinst;
      destruct (content_object db _ _) as [o|] eqn:Ho; try done;
      apply bool_decide_eq_true in Hinst;
      apply content_object_Some in Ho as (Hcls & _ & _).
    - rewrite !bool_decide_true in Hsrc by congruence. done.
    - rewrite !bool_decide_true in Htgt by congruence. done. }
  split; [done|]. by apply qs_exclude_keeps.
Qed.

Lemma related_nodes_filter_admits_unrelated_witness :
  let n := node memo 1 1 "private" in
  let c := node reference 2 1 "private" in
  let db := with_objects empty_db (c :: all_objects four_memos) in
  Q_matches db (related_nodes_filter db n reference) c = false
  ∧ c ∈ qs_exclude db (related_nodes_filter db n reference) (objects db reference).
Proof.
  intros n c db.
  apply (related_nodes_filter_admits_unrelated db n c); try reflexivity.
  - vm_compute. left.
  - intros l Hl. vm_compute in Hl.
    repeat (apply elem_of_cons in Hl as [->|Hl]; [reflexivity|]).
    by apply elem_of_nil in Hl.
  - intros [[=] _].
Defined.

Global Instance by_link_type_total name_order :
  Total (NodeModel.by_link_type name_order).
Proof. intros a b. unfold NodeModel.by_link_type. lia. Qed.

Global Instance by_link_type_trans name_order :
  Transitive (NodeModel.by_link_type name_order).
Proof. intros a b c. unfold NodeModel.by_link_type. lia. Qed.

(** X17: [all_links] returns the stored links that have the node as their source
    or as their target, and no others, ordered by link type. *)
Theorem all_links_exactly (db : DB) (name_order : nat → nat)
    (position : Obj → nat) (n : Obj) :
  (∀ l, l ∈ NodeModel.all_links db name_order position n
        ↔ l ∈ objects db link ∧ endpoint_of n l = true)
  ∧ StronglySorted (NodeModel.by_link_type name_order)
      (NodeModel.all_links db name_order position n).
Proof.
  split; [intros l; apply all_links_iff|].
  apply Sorted_StronglySorted; [apply _|]. apply Sorted_merge_sort, _.
Qed.

(** X18: for a stored node, [all_linked_objects] lists, link by link, the end of
    the link on the other side: the source when the node is the target, the
    target when it is not, in which case the node is the source. An end that
    does not resolve shows as [None]. *)
Theorem all_linked_objects_opposite_ends (db : DB) (name_order : nat → nat)
    (position : Obj → nat) (n : Obj) :
  is_Some (content_object db (cls n) (pk n)) →
  NodeModel.all_linked_objects db name_order position n = opposite_end db n <$> NodeModel.all_links db name_order position n
  ∧ ∀ l lf, l ∈ NodeModel.all_links db name_order position n → link_fields l = Some lf →
      ¬ (target_content_type lf = cls n ∧ target_object_id lf = pk n) →
      source_content_type lf = cls n ∧ source_object_id lf = pk n.
Proof.
  intros [n' Hn']. split.
  - unfold NodeModel.all_linked_objects. apply list_fmap_ext.
    intros i l Hl%list_elem_of_lookup_2.
    apply all_links_iff in Hl as [_ (lf & Hlf & _)%endpoint_of_true].
    unfold NodeModel.linked_object, opposite_end,
      NodeModel.target_content_object, NodeModel.source_content_object.
    rewrite Hlf. simpl. case_bool_decide as Htgt.
    + destruct Htgt as [-> ->]. rewrite Hn'. simpl.
      apply content_object_Some in Hn' as (-> & -> & _).
      by rewrite !bool_decide_true.
    + destruct (content_object db (target_content_type lf) (target_object_id lf))
        as [o|] eqn:Ho; simpl; [|done].
      apply content_object_Some in Ho as (Hcls & Hpk & _).
      destruct (bool_decide (cls o = cls n)) eqn:Hc; [|done].
      destruct (bool_decide (pk o = pk n)) eqn:Hp; [|done].
      apply bool_decide_eq_true in Hc, Hp. exfalso. apply Htgt. split; congruence.
  - intros l lf Hl Hlf Htgt.
    apply all_links_iff in Hl as [_ (lf' & Hlf' & Hends)%endpoint_of_true].
    rewrite Hlf in Hlf'. injection Hlf' as <-. by destruct Hends.
Qed.

Lemma all_linked_objects_opposite_ends_witness :
  NodeModel.all_linked_objects linked_notes id pk (node memo 2 1 "private")
  = [Some (node memo 1 1 "private"); Some (link_between 1 1 memo 1 memo 2)].
Proof.
  destruct (all_linked_objects_opposite_ends linked_notes id pk
              (node memo 2 1 "private"))
    as [-> _]; [by eexists|].
  vm_compute. reflexivity.
Defined.




(** ** More on the similarity search *)

Section search.
Variable CosineDistance : list Qc → list Qc → Qc.
Context (db : DB).
Implicit Types (o : Obj) (q : Q) (l : list Obj) (position : Obj → nat).

Lemma get_similar_objects_raise position c e user exclude_filter limit threshold
    level err :
  search_privacy_filter c db user level = Raise err →
  get_similar_objects CosineDistance position db c e user exclude_filter limit
    threshold level
  = Raise err.
Proof.
  unfold search_privacy_filter, get_similar_objects. by intros ->.
Qed.

(** The rows before the limit are the same whatever the order of the
    database, up to their order. *)
Lemma unlimited_Permutation position position' c e threshold pf exclude_filter :
  unlimited CosineDistance position db c e threshold pf exclude_filter
  ≡ₚ unlimited CosineDistance position' db c e threshold pf exclude_filter.
Proof.
  unfold unlimited, nearest, order_by_distance, database_order.
  assert (∀ position,
            qs_filter db pf
              (merge_sort (by_distance CosineDistance e)
                 (merge_sort (by_position position)
                    (filter (λ o, distance__lt (distance CosineDistance e o) threshold)
                       (objects db c))))
            ≡ₚ qs_filter db pf
                 (filter (λ o, distance__lt (distance CosineDistance e o) threshold)
                    (objects db c))) as Hfilter.
  { intros p. unfold qs_filter. by rewrite !merge_sort_Permutation. }
  destruct exclude_filter as [q|]; [|by rewrite !Hfilter].
  unfold qs_exclude. destruct (Q__bool__ q); by rewrite !Hfilter.
Qed.

Lemma unlimited_sorted position c e threshold pf exclude_filter :
  StronglySorted (by_distance CosineDistance e)
    (unlimited CosineDistance position db c e threshold pf exclude_filter).
Proof.
  eapply StronglySorted_sublist; [apply unlimited_sublist|apply nearest_sorted].
Qed.

End search.

(** X20: every row that the search returns is a row of the class searched, is
    let through by the privacy filter of the search and is not matched by
    the exclude filter. *)
Theorem get_similar_objects_rows_qualify
    (CosineDistance : list Qc → list Qc → Qc) (position : Obj → nat) (db : DB)
    (c : ContentType) (e : list Qc) (user : nat) (exclude_filter : option Q)
    (limit : option Z) (threshold : Qc) (level : string) (l : list Obj) :
  get_similar_objects CosineDistance position db c e user exclude_filter limit
    threshold level = Ok l →
  ∃ pf, search_privacy_filter c db user level = Ok pf
    ∧ ∀ o, o ∈ l →
        o ∈ objects db c
        ∧ Q_matches db pf o = true
        ∧ not_excluded db exclude_filter o = true.
Proof.
  intros (pf & Hpf & Hsub & _)%get_similar_objects_part_of_unlimited.
  exists pf. split; [done|].
  intros o Ho. apply (sublist_subseteq _ _ Hsub), elem_of_unlimited in Ho. tauto.
Qed.

Lemma get_similar_objects_rows_qualify_witness :
  ∃ pf, search_privacy_filter memo four_vectors 1 "own" = Ok pf
    ∧ ∀ o, o ∈ [node_at memo 3 1 [fifth 5; fifth 0];
                node_at memo 4 1 [fifth 4; fifth 3]] →
        o ∈ objects four_vectors memo
        ∧ Q_matches four_vectors pf o = true
        ∧ not_excluded four_vectors None o = true.
Proof.
  apply (get_similar_objects_rows_qualify unit_cosine_distance pk four_vectors memo
           query_vector 1 None (Some 2%Z) (Q2Qc (7 # 10)) "own").
  vm_compute. reflexivity.
Defined.

(** X21: a positive limit keeps nearest rows. The search with the limit and a
    search without it are two queries, and the database may order rows at
    equal distance differently in each ([position] and [position']); still
    the limited result has as many rows as the limit allows, each of them a
    row of the unlimited result, and every row of the unlimited result that
    it lacks is at least as far from the query as each row it has. *)
Theorem get_similar_objects_limit_keeps_nearest
    (CosineDistance : list Qc → list Qc → Qc) (position position' : Obj → nat)
    (db : DB) (c : ContentType) (e : list Qc) (user : nat)
    (exclude_filter : option Q) (n : Z) (threshold : Qc) (level : string)
    (l k : list Obj) :
  (0 < n)%Z →
  get_similar_objects CosineDistance position db c e user exclude_filter (Some n)
    threshold level = Ok l →
  get_similar_objects CosineDistance position' db c e user exclude_filter None
    threshold level = Ok k →
  length l = (Z.to_nat n `min` length k)%nat
  ∧ (∀ o, o ∈ l → o ∈ k)
  ∧ ∀ o o', o ∈ l → o' ∈ k → o' ∉ l → by_distance CosineDistance e o o'.
Proof.
  intros Hn Hl Hk.
  apply get_similar_objects_part_of_unlimited in Hl as (pf & Hpf & _ & Hl).
  destruct (Hl n eq_refl) as [_ ->]; [lia|].
  destruct (get_similar_objects_Ok _ _ _ _ _ _ _ _ _ _ _ Hk)
    as (pf' & Hpf' & Hres & Hex).
  rewrite (get_similar_objects_eq _ _ _ _ _ _ _ _ _ _ _ Hpf' Hres Hex) in Hk.
  injection Hk as <-. rewrite Hpf in Hpf'. injection Hpf' as <-.
  pose proof (unlimited_Permutation CosineDistance db position position' c e
                threshold pf exclude_filter) as Hperm.
  split; [|split].
  - rewrite length_take, <- Hperm. done.
  - intros o Ho%(sublist_subseteq _ _ (sublist_take _ _)). by rewrite <- Hperm.
  - intros o o' Ho Ho' Hno'. rewrite <- Hperm in Ho'.
    pose proof (unlimited_sorted CosineDistance db position c e threshold pf
                  exclude_filter) as Hsorted.
    rewrite <- (take_drop (Z.to_nat n)) in Hsorted, Ho'.
    apply elem_of_app in Ho' as [Ho'|Ho']; [done|].
    by apply (StronglySorted_app_1_elem_of _ _ _ _ _ Hsorted).
Qed.

(** In [four_vectors] the limited search runs with the rows in the order of
    their keys and the unlimited one with the rows in the reverse order. *)
Lemma get_similar_objects_limit_keeps_nearest_witness :
  let l := [node_at memo 3 1 [fifth 5; fifth 0]] in
  let k := [node_at memo 3 1 [fifth 5; fifth 0];
            node_at memo 4 1 [fifth 4; fifth 3];
            node_at memo 1 1 [fifth 3; fifth 4]] in
  length l = (Z.to_nat 1 `min` length k)%nat
  ∧ (∀ o, o ∈ l → o ∈ k)
  ∧ ∀ o o', o ∈ l → o' ∈ k → o' ∉ l →
      by_distance unit_cosine_distance query_vector o o'.
Proof.
  intros l k.
  apply (get_similar_objects_limit_keeps_nearest unit_cosine_distance
           pk (λ o, 10 - pk o) four_vectors memo query_vector 1 None 1
           (Q2Qc (7 # 10)) "own" l k).
  - lia.
  - vm_compute. reflexivity.
  - vm_compute. reflexivity.
Defined.

(** X22: at level [own] (for a class without privacy levels at any level), with
    an exclude filter that the class resolves, and without a limit or with
    the limit 0, the search returns exactly the rows of the class that have
    a distance below the threshold, pass the privacy filter and are not
    matched by the exclude filter: none of them is left out. *)
Theorem get_similar_objects_unlimited_exactly
    (CosineDistance : list Qc → list Qc → Qc) (position : Obj → nat) (db : DB)
    (c : ContentType) (e : list Qc) (user : nat) (exclude_filter : option Q)
    (limit : option Z) (threshold : Qc) (level : string) :
  limit = None ∨ limit = Some 0%Z →
  (issubclass_PrivacySettingsModel c = true → level = "own") →
  (∀ q, exclude_filter = Some q → Q_resolves c q = true) →
  ∃ l pf,
    get_similar_objects CosineDistance position db c e user exclude_filter limit
      threshold level = Ok l
    ∧ search_privacy_filter c db user level = Ok pf
    ∧ ∀ o, o ∈ l
        ↔ o ∈ objects db c
          ∧ below CosineDistance e threshold o
          ∧ Q_matches db pf o = true
          ∧ not_excluded db exclude_filter o = true.
Proof.
  intros Hlimit Hlevel Hex.
  destruct (search_privacy_filter_own db c user level Hlevel) as (pf & Hpf & Hres).
  exists (unlimited CosineDistance position db c e threshold pf exclude_filter), pf.
  rewrite (get_similar_objects_eq _ _ _ _ _ _ _ _ _ _ _ Hpf Hres Hex).
  split; [by destruct Hlimit as [-> | ->]|]. split; [done|].
  intros o. apply elem_of_unlimited.
Qed.

Lemma get_similar_objects_unlimited_exactly_witness :
  ∃ l, get_similar_objects unit_cosine_distance pk four_vectors memo query_vector 1
         (Some (Q_ [pk_exact 4])) (Some 0%Z) (Q2Qc (7 # 10)) "own" = Ok l
    ∧ l = [node_at memo 3 1 [fifth 5; fifth 0]; node_at memo 1 1 [fifth 3; fifth 4]].
Proof.
  destruct (get_similar_objects_unlimited_exactly unit_cosine_distance pk four_vectors
              memo query_vector 1 (Some (Q_ [pk_exact 4])) (Some 0%Z)
              (Q2Qc (7 # 10)) "own")
    as (l & pf & Hl & _ & _).
  - by right.
  - intros _. reflexivity.
  - intros q [= <-]. reflexivity.
  - exists l. split; [exact Hl|].
    vm_compute in Hl. by injection Hl as <-.
Defined.

(** X23: at level [own] (for a class without privacy levels at any level) and
    with an exclude filter that the class resolves, a negative limit makes
    the search raise [ValueError] at the slice. *)
Theorem get_similar_objects_negative_limit
    (CosineDistance : list Qc → list Qc → Qc) (position : Obj → nat) (db : DB)
    (c : ContentType) (e : list Qc) (user : nat) (exclude_filter : option Q)
    (n : Z) (threshold : Qc) (level : string) :
  (n < 0)%Z →
  (issubclass_PrivacySettingsModel c = true → level = "own") →
  (∀ q, exclude_filter = Some q → Q_resolves c q = true) →
  get_similar_objects CosineDistance position db c e user exclude_filter (Some n)
    threshold level
  = Raise (ValueError "Negative indexing is not supported.").
Proof.
  intros Hn Hlevel Hex.
  destruct (search_privacy_filter_own db c user level Hlevel) as (pf & Hpf & Hres).
  rewrite (get_similar_objects_eq _ _ _ _ _ _ _ _ _ _ _ Hpf Hres Hex).
  rewrite bool_decide_true by lia. unfold slice_to. by rewrite bool_decide_true.
Qed.

Lemma get_similar_objects_negative_limit_witness :
  get_similar_objects unit_cosine_distance pk four_vectors memo query_vector 1
    None (Some (-1)%Z) (Q2Qc (7 # 10)) "own"
  = Raise (ValueError "Negative indexing is not supported.").
Proof.
  apply (get_similar_objects_negative_limit unit_cosine_distance pk four_vectors memo
           query_vector 1 None (-1) (Q2Qc (7 # 10)) "own").
  - lia.
  - intros _. reflexivity.
  - intros q [=].
Defined.

(** X24: for a class with privacy levels a level other than [own], [friends] and
    [fof] makes the search raise, whatever the other arguments are. *)
Theorem get_similar_objects_unknown_level
    (CosineDistance : list Qc → list Qc → Qc) (position : Obj → nat) (db : DB)
    (c : ContentType) (e : list Qc) (user : nat) (exclude_filter : option Q)
    (limit : option Z) (threshold : Qc) (level : string) :
  issubclass_PrivacySettingsModel c = true →
  level ∉ ["own"; "friends"; "fof"] →
  get_similar_objects CosineDistance position db c e user exclude_filter limit
    threshold level
  = Raise (ValueError "Invalid level provided.").
Proof.
  intros Hc Hlevel. apply get_similar_objects_raise.
  unfold search_privacy_filter. rewrite Hc.
  unfold get_privacy_filter. case_bool_decide.
  - unfold Link.get_privacy_filter. simpl.
    by rewrite (get_privacy_filter_invalid db user level Hlevel).
  - by apply get_privacy_filter_invalid.
Qed.

Lemma get_similar_objects_unknown_level_witness :
  get_similar_objects unit_cosine_distance pk four_vectors memo query_vector 1
    None None (Q2Qc (7 # 10)) "everyone"
  = Raise (ValueError "Invalid level provided.").
Proof.
  apply get_similar_objects_unknown_level; [reflexivity|].
  intros Hin. repeat (apply elem_of_cons in Hin as [[=]|Hin]).
  by apply elem_of_nil in Hin.
Defined.

(** X25: a search over tags ignores the level, known or not, and returns only
    tags that the user owns. *)
Theorem get_similar_objects_tags_own_only
    (CosineDistance : list Qc → list Qc → Qc) (position : Obj → nat) (db : DB)
    (e : list Qc) (user : nat) (exclude_filter : option Q) (limit : option Z)
    (threshold : Qc) (level level' : string) (l : list Obj) :
  get_similar_objects CosineDistance position db tag e user exclude_filter limit
    threshold level = Ok l →
  get_similar_objects CosineDistance position db tag e user exclude_filter limit
    threshold level' = Ok l
  ∧ ∀ o, o ∈ l → cls o = tag ∧ user_id o = user.
Proof.
  intros Hl. split; [exact Hl|].
  apply get_similar_objects_part_of_unlimited in Hl as (pf & [= <-] & Hsub & _).
  intros o Ho.
  apply (sublist_subseteq _ _ Hsub), elem_of_unlimited in Ho as (Hin & _ & Hm & _).
  split.
  - unfold objects in Hin. by apply list_elem_of_filter in Hin as [? _].
  - simpl in Hm. rewrite andb_true_r in Hm. by apply bool_decide_eq_true in Hm.
Qed.

Lemma get_similar_objects_tags_own_only_witness :
  get_similar_objects unit_cosine_distance pk two_tags tag query_vector 1
    None None (Q2Qc (7 # 10)) "fof"
  = Ok [node_at tag 1 1 [fifth 5; fifth 0]]
  ∧ ∀ o, o ∈ [node_at tag 1 1 [fifth 5; fifth 0]] → cls o = tag ∧ user_id o = 1.
Proof.
  apply (get_similar_objects_tags_own_only unit_cosine_distance pk two_tags
           query_vector 1 None None (Q2Qc (7 # 10)) "no such level" "fof").
  vm_compute. reflexivity.
Defined.

(** X26: for a class with privacy levels the search returns at no level above
    [own]: at level [friends] it raises [FieldError], when the filter that
    names [user__userprofile] is applied, and at level [fof] it raises
    [AttributeError], when the filter is built; the other arguments do not
    matter. *)
Theorem get_similar_objects_above_own_raises
    (CosineDistance : list Qc → list Qc → Qc) (position : Obj → nat) (db : DB)
    (c : ContentType) (e : list Qc) (user : nat) (exclude_filter : option Q)
    (limit : option Z) (threshold : Qc) :
  issubclass_PrivacySettingsModel c = true →
  get_similar_objects CosineDistance position db c e user exclude_filter limit
    threshold "friends" = Raise FieldError
  ∧ get_similar_objects CosineDistance position db c e user exclude_filter limit
      threshold "fof"
    = Raise (AttributeError "'User' object has no attribute 'userprofile'").
Proof.
  intros Hc. split.
  - unfold get_similar_objects. rewrite Hc. unfold get_privacy_filter.
    case_bool_decide as Hlink.
    + by rewrite Link_get_privacy_filter_friends.
    + rewrite get_privacy_filter_friends. cbn [mbind result_bind].
      unfold QuerySet_filter. by rewrite friends_filter_unresolved.
  - apply get_similar_objects_raise. unfold search_privacy_filter. rewrite Hc.
    unfold get_privacy_filter. case_bool_decide as Hlink.
    + apply Link_get_privacy_filter_fof.
    + apply get_privacy_filter_fof.
Qed.

Lemma get_similar_objects_above_own_raises_witness :
  get_similar_objects unit_cosine_distance pk four_vectors memo query_vector 1
    None None (Q2Qc (7 # 10)) "friends" = Raise FieldError
  ∧ get_similar_objects unit_cosine_distance pk four_vectors memo query_vector 1
      None None (Q2Qc (7 # 10)) "fof"
    = Raise (AttributeError "'User' object has no attribute 'userprofile'").
Proof.
  apply get_similar_objects_above_own_raises. reflexivity.
Defined.
